(** * lab_5_scrapper/scrapper.py: configuration, request and environment

    A shallow embedding of [scrapper.py]: the [Config] class with its
    validation, [make_request], [prepare_environment], [main] and the
    [Crawler] skeleton.  Python values that come out of [json.load] are an
    inductive type, exceptions are an explicit error result, and the file
    system the code reads and changes is a finite map from paths to
    nodes. *)

From Stdlib Require Import ZArith QArith.
From stdpp Require Import gmap strings list fin_maps.

Local Open Scope Z_scope.

(** ** Python values *)

(** A Python [float]: IEEE doubles are the two infinities, NaN and a set of
    rationals; only comparison with an [int] is needed here, and Python
    compares a float with an int exactly. *)
Inductive pyfloat : Type :=
| FNaN
| FInf (negative : bool)
| FFin (q : Q).

Local Set Warnings "-register-all".

(** What [json.load] returns: [None], [bool], [int], [float], [str], [list]
    and [dict].  A [dict] keeps its items in insertion order; strings are
    byte strings (UTF-8), which is exact for the ASCII prefixes tested. *)
Inductive pyval : Type :=
| PyNone
| PyBool (b : bool)
| PyInt (n : Z)
| PyFloat (f : pyfloat)
| PyStr (s : string)
| PyList (l : list pyval)
| PyDict (d : list (string * pyval)).

(** ** Exceptions *)

(** [PyException msg] is [Exception(msg)], the only exception the module
    raises itself; the others come from the interpreter, [os], [json] and
    [requests]. *)
Inductive exn : Type :=
| PyException (msg : string)
| KeyError (key : string)
| TypeError
| AttributeError
| JSONDecodeError
| FileNotFoundError
| FileExistsError
| NotADirectoryError
| IsADirectoryError
| DirectoryNotEmpty
| RequestsTimeout
| RequestsConnectionError
| RequestsSSLError.

Inductive result (A : Type) : Type :=
| Ok (a : A)
| Raise (e : exn).
Arguments Ok {A} a.
Arguments Raise {A} e.

(** The error monad, with stdpp's notations [x ← m; k] and [m;; k]. *)
#[export] Instance result_ret : MRet result := fun A a => Ok a.
#[export] Instance result_bind : MBind result := fun A B k m =>
  match m with
  | Ok a => k a
  | Raise e => Raise e
  end.

#[export] Instance result_fmap : FMap result := fun A B f m =>
  match m with
  | Ok a => Ok (f a)
  | Raise e => Raise e
  end.

(** ** Built-in operations on values *)

(** [isinstance(v, int)]: [bool] is a subclass of [int]. *)
Definition isinstance_int (v : pyval) : bool :=
  match v with PyInt _ | PyBool _ => true | _ => false end.

Definition isinstance_bool (v : pyval) : bool :=
  match v with PyBool _ => true | _ => false end.

Definition isinstance_str (v : pyval) : bool :=
  match v with PyStr _ => true | _ => false end.

Definition isinstance_dict (v : pyval) : bool :=
  match v with PyDict _ => true | _ => false end.

Definition Qltb (x y : Q) : bool :=
  (Qnum x * Z.pos (Qden y) <? Qnum y * Z.pos (Qden x))%Z.

(** [f < k] and [f > k] for a float [f] and an int [k]; every comparison
    with NaN is false. *)
Definition float_lt_int (f : pyfloat) (k : Z) : bool :=
  match f with
  | FNaN => false
  | FInf negative => negative
  | FFin q => Qltb q (inject_Z k)
  end.

Definition float_gt_int (f : pyfloat) (k : Z) : bool :=
  match f with
  | FNaN => false
  | FInf negative => negb negative
  | FFin q => Qltb (inject_Z k) q
  end.

(** [v < k] for an int literal [k]: numbers compare by value, anything else
    raises [TypeError]. *)
Definition py_lt (v : pyval) (k : Z) : result bool :=
  match v with
  | PyInt n => Ok (n <? k)
  | PyBool b => Ok (Z.b2z b <? k)
  | PyFloat f => Ok (float_lt_int f k)
  | _ => Raise TypeError
  end.

Definition py_gt (v : pyval) (k : Z) : result bool :=
  match v with
  | PyInt n => Ok (k <? n)
  | PyBool b => Ok (k <? Z.b2z b)
  | PyFloat f => Ok (float_gt_int f k)
  | _ => Raise TypeError
  end.

(** [a or b] on two comparisons: the right one runs only when the left one
    is false. *)
Definition py_or (a b : result bool) : result bool :=
  match a with
  | Ok true => Ok true
  | Ok false => b
  | Raise e => Raise e
  end.

(** [s.startswith(prefixes)] with a tuple of prefixes. *)
Definition startswith (s : string) (prefixes : list string) : bool :=
  existsb (fun p => String.prefix p s) prefixes.

(** Iterating a value: a list gives its elements, a [dict] its keys, a
    [str] its characters; the other values are not iterable. *)
Fixpoint chars (s : string) : list pyval :=
  match s with
  | EmptyString => []
  | String c r => PyStr (String c EmptyString) :: chars r
  end.

(** The keys of a [dict] built by [json.load] from the items of an object:
    a repeated key keeps its first position. *)
Fixpoint dict_keys (d : list (string * pyval)) (seen : list string) : list pyval :=
  match d with
  | [] => []
  | (k, _) :: r =>
      if bool_decide (k ∈ seen) then dict_keys r seen
      else PyStr k :: dict_keys r (k :: seen)
  end.

Definition py_iter (v : pyval) : result (list pyval) :=
  match v with
  | PyList l => Ok l
  | PyDict d => Ok (dict_keys d [])
  | PyStr s => Ok (chars s)
  | _ => Raise TypeError
  end.

(** [d[key]] on the value [json.load] returned: the last item of a repeated
    key wins; subscripting anything but a [dict] with a string raises
    [TypeError]. *)
Fixpoint dict_get (d : list (string * pyval)) (key : string) : option pyval :=
  match d with
  | [] => None
  | (k, v) :: r =>
      match dict_get r key with
      | Some w => Some w
      | None => if String.eqb k key then Some v else None
      end
  end.

Definition py_getitem (v : pyval) (key : string) : result pyval :=
  match v with
  | PyDict d =>
      match dict_get d key with
      | Some w => Ok w
      | None => Raise (KeyError key)
      end
  | _ => Raise TypeError
  end.

(** ** The file system *)

(** A path holds a regular file or a directory.  A file is seen through
    [json.load]: its text either parses to a value or does not. *)
Inductive node : Type :=
| File (parsed : option pyval)
| Dir (entries : list string).

Abbreviation filesystem := (gmap string node).

(** [with open(path) as f: json.load(f)], for the three ways a read fails
    that the nodes above tell apart.  A file the process may not read, bytes
    that are not valid text and a number literal beyond the interpreter's
    digit limit raise errors of their own; the model has no such files. *)
Definition open_json_load (fs : filesystem) (path : string) : result pyval :=
  match fs !! path with
  | None => Raise FileNotFoundError
  | Some (Dir _) => Raise IsADirectoryError
  | Some (File None) => Raise JSONDecodeError
  | Some (File (Some v)) => Ok v
  end.

(** ** class Config *)

(** Modelled from the spec: [core_utils.config_dto.ConfigDTO] is imported by
    [scrapper.py] and its class body is missing from the sources.  It is the
    plain record its constructor call and its attribute reads show: the seven
    keys of the input file (spec, External interfaces), stored as given, the
    key [total_articles_to_find_and_parse] under the attribute
    [total_articles]. *)
Record ConfigDTO : Type := {
  seed_urls : pyval;
  total_articles : pyval;
  headers : pyval;
  encoding : pyval;
  timeout : pyval;
  should_verify_certificate : pyval;
  headless_mode : pyval
}.

(** A [Config] instance: an attribute is [None] until [__init__] assigns
    it. *)
Record Config : Type := {
  path_to_config : option string;
  config : option ConfigDTO
}.

Definition getattr {A : Type} (attribute : option A) : result A :=
  match attribute with
  | Some a => Ok a
  | None => Raise AttributeError
  end.

Definition _extract_config_content (fs : filesystem) (self : Config)
  : result ConfigDTO :=
  path ← getattr (path_to_config self);
  config ← open_json_load fs path;
  a ← py_getitem config "seed_urls";
  b ← py_getitem config "total_articles_to_find_and_parse";
  c ← py_getitem config "headers";
  d ← py_getitem config "encoding";
  e ← py_getitem config "timeout";
  f ← py_getitem config "should_verify_certificate";
  g ← py_getitem config "headless_mode";
  Ok {| seed_urls := a; total_articles := b; headers := c; encoding := d;
        timeout := e; should_verify_certificate := f; headless_mode := g |}.

Definition seed_prefixes : list string := ["https://www."; "http://www."]%string.

(** [all(seed.startswith((...)) for seed in seeds)]: stops at the first
    seed without the prefix; a seed that is not a [str] has no
    [startswith]. *)
Fixpoint all_startswith (seeds : list pyval) : result bool :=
  match seeds with
  | [] => Ok true
  | PyStr seed :: rest =>
      if startswith seed seed_prefixes then all_startswith rest else Ok false
  | _ :: _ => Raise AttributeError
  end.

(** [if condition: raise Exception(msg)] *)
Definition raise_if (condition : bool) (msg : string) : result unit :=
  if condition then Raise (PyException msg) else Ok ().

(** The seven checks of [_validate_config_content] on the loaded values, in
    the order of the source. *)
Definition validate_dto (config : ConfigDTO) : result unit :=
  seeds ← py_iter (seed_urls config);
  ok ← all_startswith seeds;
  raise_if (negb ok) "IncorrectSeedURLError";;
  out ← py_or (py_lt (total_articles config) 1) (py_gt (total_articles config) 150);
  raise_if out "NumberOfArticlesOutOfRangeError";;
  raise_if (negb (isinstance_int (total_articles config))) "IncorrectNumberOfArticlesError";;
  raise_if (negb (isinstance_dict (headers config))) "IncorrectHeadersError";;
  raise_if (negb (isinstance_str (encoding config))) "IncorrectEncodingError";;
  out ← py_or (py_lt (timeout config) 1) (py_gt (timeout config) 60);
  raise_if out "IncorrectTimeoutError";;
  raise_if (negb (isinstance_bool (headless_mode config))) "IncorrectVerifyError".

Definition _validate_config_content (fs : filesystem) (self : Config)
  : result unit :=
  config ← _extract_config_content fs self;
  validate_dto config.

(** [Config.__init__]: the state of [self] when the method ends, and
    whether it returned or raised. *)
Definition Config__init__ (fs : filesystem) (self : Config) (path : string)
  : Config * result unit :=
  let self1 := {| path_to_config := Some path; config := config self |} in
  match _validate_config_content fs self1 with
  | Raise e => (self1, Raise e)
  | Ok _ =>
      match _extract_config_content fs self1 with
      | Raise e => (self1, Raise e)
      | Ok dto =>
          ({| path_to_config := path_to_config self1; config := Some dto |}, Ok ())
      end
  end.

(** The expression [Config(path_to_config=path)]: a fresh instance goes
    through [__init__]; the caller gets it only when [__init__] returns. *)
Definition Config_new (fs : filesystem) (path : string) : result Config :=
  let fresh := {| path_to_config := None; config := None |} in
  match Config__init__ fs fresh path with
  | (self, Ok _) => Ok self
  | (_, Raise e) => Raise e
  end.

Definition get_seed_urls (self : Config) : result pyval :=
  seed_urls <$> getattr (config self).

Definition get_num_articles (self : Config) : result pyval :=
  total_articles <$> getattr (config self).

Definition get_headers (self : Config) : result pyval :=
  headers <$> getattr (config self).

Definition get_encoding (self : Config) : result pyval :=
  encoding <$> getattr (config self).

Definition get_timeout (self : Config) : result pyval :=
  timeout <$> getattr (config self).

Definition get_verify_certificate (self : Config) : result pyval :=
  should_verify_certificate <$> getattr (config self).

Definition get_headless_mode (self : Config) : result pyval :=
  headless_mode <$> getattr (config self).

(** What the configuration file at [path] holds, as [__init__] reads it. *)
Definition file_dto (fs : filesystem) (path : string) : result ConfigDTO :=
  _extract_config_content fs {| path_to_config := Some path; config := None |}.

Definition constructed (path : string) (dto : ConfigDTO) : Config :=
  {| path_to_config := Some path; config := Some dto |}.

(** ** The rules the validation enforces, stated on the values *)

(** [s] starts with [http://] or [https://], immediately followed by
    [www.]. *)
Definition http_www_prefixed (s : string) : Prop :=
  ∃ rest : string,
    s = ("https://" +:+ "www." +:+ rest)%string ∨ s = ("http://" +:+ "www." +:+ rest)%string.

Definition seed_rule (dto : ConfigDTO) : Prop :=
  ∃ seeds, py_iter (seed_urls dto) = Ok seeds ∧
           Forall (λ v, ∃ s, v = PyStr s ∧ http_www_prefixed s) seeds.

(** The integer a value is, for Python: an [int], or a [bool] (which is an
    [int] subclass with values 0 and 1). *)
Definition int_value (v : pyval) : option Z :=
  match v with
  | PyInt n => Some n
  | PyBool b => Some (Z.b2z b)
  | _ => None
  end.

(** A number that is neither below [lo] nor above [hi]; NaN is neither. *)
Definition within (lo hi : Z) (v : pyval) : Prop :=
  match v with
  | PyInt n => lo ≤ n ≤ hi
  | PyBool b => lo ≤ Z.b2z b ≤ hi
  | PyFloat (FFin q) => (inject_Z lo <= q)%Q ∧ (q <= inject_Z hi)%Q
  | PyFloat FNaN => True
  | _ => False
  end.

Definition count_rule (dto : ConfigDTO) : Prop :=
  ∃ n, int_value (total_articles dto) = Some n ∧ 1 ≤ n ≤ 150.

Definition headers_rule (dto : ConfigDTO) : Prop :=
  ∃ d, headers dto = PyDict d.

Definition encoding_rule (dto : ConfigDTO) : Prop :=
  ∃ s, encoding dto = PyStr s.

Definition timeout_rule (dto : ConfigDTO) : Prop :=
  within 1 60 (timeout dto).

Definition headless_rule (dto : ConfigDTO) : Prop :=
  ∃ b, headless_mode dto = PyBool b.

Definition rules_hold (dto : ConfigDTO) : Prop :=
  seed_rule dto ∧ count_rule dto ∧ headers_rule dto ∧ encoding_rule dto ∧
  timeout_rule dto ∧ headless_rule dto.

(** The checks that follow the seed check and the two count checks. *)
Definition checks_after_count (config : ConfigDTO) : result unit :=
  raise_if (negb (isinstance_dict (headers config))) "IncorrectHeadersError";;
  raise_if (negb (isinstance_str (encoding config))) "IncorrectEncodingError";;
  out ← py_or (py_lt (timeout config) 1) (py_gt (timeout config) 60);
  raise_if out "IncorrectTimeoutError";;
  raise_if (negb (isinstance_bool (headless_mode config))) "IncorrectVerifyError".

Definition checks_after_seeds (config : ConfigDTO) : result unit :=
  out ← py_or (py_lt (total_articles config) 1) (py_gt (total_articles config) 150);
  raise_if out "NumberOfArticlesOutOfRangeError";;
  raise_if (negb (isinstance_int (total_articles config))) "IncorrectNumberOfArticlesError";;
  checks_after_count config.

(** The same values with another [should_verify_certificate]. *)
Definition with_verify (v : pyval) (dto : ConfigDTO) : ConfigDTO :=
  {| seed_urls := seed_urls dto;
     total_articles := total_articles dto;
     headers := headers dto;
     encoding := encoding dto;
     timeout := timeout dto;
     should_verify_certificate := v;
     headless_mode := headless_mode dto |}.

(** ** make_request *)

(** The keyword arguments of one [requests.get] call; [None] is an argument
    the call leaves out. *)
Record get_kwargs : Type := {
  kw_url : string;
  kw_headers : option pyval;
  kw_timeout : option pyval;
  kw_verify : option pyval
}.

Record Response : Type := {
  status_code : Z;
  content : string
}.

(** What [requests] does with the [verify] argument: left out, certificates
    are verified. *)
Definition effective_verify (kw : get_kwargs) : pyval :=
  default (PyBool true) (kw_verify kw).

Section Requests.
(** The network behind [requests.get]: a response (of any status code),
    or the exception [requests] raises for a timeout, a connection or DNS
    failure, or a certificate failure. *)
Variable requests_get : get_kwargs → result Response.

Definition make_request (url : string) (config : Config) : result Response :=
  headers ← get_headers config;
  timeout ← get_timeout config;
  requests_get {| kw_url := url; kw_headers := Some headers;
                  kw_timeout := Some timeout; kw_verify := None |}.
End Requests.

(** ** prepare_environment *)

Definition os_path_isdir (fs : filesystem) (path : string) : bool :=
  match fs !! path with
  | Some (Dir _) => true
  | _ => false
  end.

Definition os_listdir (fs : filesystem) (path : string) : result (list string) :=
  match fs !! path with
  | Some (Dir entries) => Ok entries
  | Some (File _) => Raise NotADirectoryError
  | None => Raise FileNotFoundError
  end.

(** [os.rmdir] removes an empty directory only.  The file system after the
    call comes with the outcome. *)
Definition os_rmdir (fs : filesystem) (path : string) : filesystem * result unit :=
  match fs !! path with
  | Some (Dir []) => (delete path fs, Ok ())
  | Some (Dir (_ :: _)) => (fs, Raise DirectoryNotEmpty)
  | Some (File _) => (fs, Raise NotADirectoryError)
  | None => (fs, Raise FileNotFoundError)
  end.

(** [os.mkdir] refuses a path that exists.  The parent directory is taken
    to exist and to be writable. *)
Definition os_mkdir (fs : filesystem) (path : string) : filesystem * result unit :=
  match fs !! path with
  | Some _ => (fs, Raise FileExistsError)
  | None => (<[path := Dir []]> fs, Ok ())
  end.

(** Truth value of a list: non-empty. *)
Definition list_truthy {A : Type} (l : list A) : bool :=
  match l with [] => false | _ :: _ => true end.

Section Environment.
(** [core_utils.constants.ASSETS_PATH], imported by [scrapper.py]. *)
Variable ASSETS_PATH : string.

(** [os.path.isdir(ASSETS_PATH) and os.listdir(ASSETS_PATH)], as a truth
    value. *)
Definition assets_is_nonempty_dir (fs : filesystem) : result bool :=
  if os_path_isdir fs ASSETS_PATH
  then list_truthy <$> os_listdir fs ASSETS_PATH
  else Ok false.

(** [base_path] is not used by the body. *)
Definition prepare_environment (fs : filesystem) (base_path : string)
  : filesystem * result unit :=
  match assets_is_nonempty_dir fs with
  | Raise e => (fs, Raise e)
  | Ok nonempty =>
      let '(fs1, removed) :=
        if negb nonempty then os_rmdir fs ASSETS_PATH else (fs, Ok ()) in
      match removed with
      | Raise e => (fs1, Raise e)
      | Ok _ => os_mkdir fs1 ASSETS_PATH
      end
  end.
End Environment.

(** ** class Crawler *)

(** [Crawler] as the source has it: [__init__], [find_articles] and
    [get_search_urls] consist of a docstring, so each returns [None] and
    assigns no attribute.  An instance is its attribute dictionary. *)
Abbreviation Crawler := (gmap string pyval).

Definition Crawler__init__ (self : Crawler) (config : Config) : Crawler * result pyval :=
  (self, Ok PyNone).

Definition Crawler_find_articles (self : Crawler) : Crawler * result pyval :=
  (self, Ok PyNone).

Definition Crawler_get_search_urls (self : Crawler) : Crawler * result pyval :=
  (self, Ok PyNone).


(** ** Concrete inputs *)

Module Inputs.

(** A configuration file with the given article count, timeout,
    certificate flag, headless flag and seed URLs. *)
Definition config_json (seeds : list string) (count timeout_v verify_v headless_v : pyval)
  : pyval :=
  PyDict [("seed_urls"%string, PyList (PyStr <$> seeds));
          ("total_articles_to_find_and_parse"%string, count);
          ("headers"%string, PyDict [("User-Agent"%string, PyStr "Mozilla/5.0")]);
          ("encoding"%string, PyStr "utf-8");
          ("timeout"%string, timeout_v);
          ("should_verify_certificate"%string, verify_v);
          ("headless_mode"%string, headless_v)].

Definition config_dto (seeds : list string) (count timeout_v verify_v headless_v : pyval)
  : ConfigDTO :=
  {| seed_urls := PyList (PyStr <$> seeds);
     total_articles := count;
     headers := PyDict [("User-Agent"%string, PyStr "Mozilla/5.0")];
     encoding := PyStr "utf-8";
     timeout := timeout_v;
     should_verify_certificate := verify_v;
     headless_mode := headless_v |}.

Definition disk (file : pyval) : filesystem :=
  {[ "scrapper_config.json"%string := File (Some file) ]}.

Definition good_seeds : list string := ["https://www.site.com/news"%string].

Definition good_dto : ConfigDTO :=
  config_dto good_seeds (PyInt 5) (PyInt 10) (PyBool true) (PyBool false).

Definition good_disk : filesystem :=
  disk (config_json good_seeds (PyInt 5) (PyInt 10) (PyBool true) (PyBool false)).

(** The timeout 30.5. *)
Definition fractional_timeout : pyval := PyFloat (FFin (61 # 2)).

(** A host with a self-signed certificate: it answers only a request that
    does not verify certificates. *)
Definition self_signed_host (kw : get_kwargs) : result Response :=
  match effective_verify kw with
  | PyBool false => Ok {| status_code := 200; content := "<html></html>" |}
  | _ => Raise RequestsSSLError
  end.

(** A host that never answers in time. *)
Definition silent_host (kw : get_kwargs) : result Response :=
  Raise RequestsTimeout.

(** A host that answers every request with status 404. *)
Definition missing_page_host (kw : get_kwargs) : result Response :=
  Ok {| status_code := 404; content := "" |}.

Definition assets : string := "tmp/articles".

Definition disk_with_articles : filesystem :=
  {[ assets := Dir ["1_raw.txt"%string; "1_meta.json"%string] ]}.

Definition disk_with_empty_assets : filesystem :=
  {[ assets := Dir [] ]}.

End Inputs.

(** ** main *)

(** The keys [_extract_config_content] reads, in the order of the keyword
    arguments of its [ConfigDTO(...)] call. *)
Definition config_keys : list string :=
  ["seed_urls"; "total_articles_to_find_and_parse"; "headers"; "encoding";
   "timeout"; "should_verify_certificate"; "headless_mode"]%string.

(** A call of [prepare_environment] with the given positional arguments:
    the function has one parameter and no default for it. *)
Definition call_prepare_environment (ASSETS_PATH : string) (fs : filesystem)
    (args : list string) : filesystem * result unit :=
  match args with
  | [base_path] => prepare_environment ASSETS_PATH fs base_path
  | _ => (fs, Raise TypeError)
  end.

(** [main]: the configuration is constructed from
    [core_utils.constants.CRAWLER_CONFIG_PATH], then [prepare_environment]
    is called without an argument. *)
Definition main (ASSETS_PATH CRAWLER_CONFIG_PATH : string) (fs : filesystem)
  : filesystem * result unit :=
  match Config_new fs CRAWLER_CONFIG_PATH with
  | Raise e => (fs, Raise e)
  | Ok configuration => call_prepare_environment ASSETS_PATH fs []
  end.

(** ** Further predicates on values *)

(** A value the comparisons accept: [int], [bool] or [float]. *)
Definition is_number (v : pyval) : Prop :=
  match v with
  | PyInt _ | PyBool _ | PyFloat _ => True
  | _ => False
  end.

(** A number below [lo] or above [hi]. *)
Definition outside (lo hi : Z) (v : pyval) : Prop :=
  match v with
  | PyInt n => n < lo ∨ hi < n
  | PyBool b => Z.b2z b < lo ∨ hi < Z.b2z b
  | PyFloat (FFin q) => (q < inject_Z lo)%Q ∨ (inject_Z hi < q)%Q
  | PyFloat (FInf _) => True
  | _ => False
  end.

(** The rule for the timeout as it is stated, "timeout must be an integer
    in [1, 60]", to set beside [timeout_rule], which is what the check
    [config.timeout < 1 or config.timeout > 60] lets through. *)
Definition stated_timeout_rule (dto : ConfigDTO) : Prop :=
  ∃ n, int_value (timeout dto) = Some n ∧ 1 ≤ n ≤ 60.

(** The first key of [keys] that the object [d] lacks. *)
Definition first_missing (d : list (string * pyval)) (keys : list string)
  : option string :=
  List.find (λ k, match dict_get d k with None => true | Some _ => false end) keys.

(** The same values with other headers and another encoding. *)
Definition with_headers_encoding (h e : pyval) (dto : ConfigDTO) : ConfigDTO :=
  {| seed_urls := seed_urls dto;
     total_articles := total_articles dto;
     headers := h;
     encoding := e;
     timeout := timeout dto;
     should_verify_certificate := should_verify_certificate dto;
     headless_mode := headless_mode dto |}.

(** ** Lemmas on the built-in operations *)

Lemma prefix_app (p s : string) :
  String.prefix p s = true ↔ ∃ rest, s = (p +:+ rest)%string.
Proof.
  revert s. induction p as [|c p IH]; intros s.
  - split; [intros _; by exists s | by destruct s].
  - destruct s as [|c' s].
    + split; [done | intros [rest H]; discriminate H].
    + change (String c p +:+ ?r)%string with (String c (p +:+ r)). simpl.
      destruct (Ascii.ascii_dec c c') as [->|Hne].
      * rewrite IH. split; intros [rest H]; exists rest; congruence.
      * split; [done | intros [rest H]; congruence].
Qed.

Lemma startswith_seed (s : string) :
  startswith s seed_prefixes = true ↔ http_www_prefixed s.
Proof.
  unfold startswith, seed_prefixes, http_www_prefixed. simpl.
  rewrite !orb_true_iff, !prefix_app. split.
  - intros [[r H]|[[r H]|H]]; [exists r; by left | exists r; by right | done].
  - intros [r [H|H]]; [left | right; left]; by exists r.
Qed.

Lemma all_startswith_true (seeds : list pyval) :
  all_startswith seeds = Ok true ↔
  Forall (λ v, ∃ s, v = PyStr s ∧ http_www_prefixed s) seeds.
Proof.
  induction seeds as [|v seeds IH]; cbn [all_startswith].
  - split; [constructor | done].
  - destruct v as [| | | |s| |]; try (split; [done | inversion 1 as [|? ? [s' [? _]]]; done]).
    destruct (startswith s seed_prefixes) eqn:E.
    + rewrite IH. split.
      * intros H. constructor; [|done]. exists s. by rewrite <- startswith_seed.
      * by inversion 1.
    + split; [done|]. inversion 1 as [|? ? [s' [Heq Hs]]].
      injection Heq as <-. apply startswith_seed in Hs. congruence.
Qed.


Lemma Qltb_lt (x y : Q) : Qltb x y = true ↔ (x < y)%Q.
Proof. unfold Qltb, Qlt. apply Z.ltb_lt. Qed.

Lemma Qltb_ge (x y : Q) : Qltb x y = false ↔ (y <= x)%Q.
Proof. unfold Qltb, Qle. rewrite Z.ltb_ge. done. Qed.

(** [v < lo or v > hi] is false exactly for the numbers within the
    bounds. *)
Lemma out_of_range_false (v : pyval) (lo hi : Z) :
  py_or (py_lt v lo) (py_gt v hi) = Ok false ↔ within lo hi v.
Proof.
  destruct v as [|b|n|[|neg|q]|s|l|d]; simpl; try done.
  - destruct (Z.ltb_spec (Z.b2z b) lo), (Z.ltb_spec hi (Z.b2z b)); simpl;
      split; (done || lia).
  - destruct (Z.ltb_spec n lo), (Z.ltb_spec hi n); simpl; split; (done || lia).
  - by destruct neg.
  - destruct (Qltb q (inject_Z lo)) eqn:E1; simpl.
    + apply Qltb_lt in E1. split; [done|]. intros [H _].
      by apply Qle_not_lt in H.
    + apply Qltb_ge in E1. destruct (Qltb (inject_Z hi) q) eqn:E2.
      * apply Qltb_lt in E2. split; [done|]. intros [_ H].
        by apply Qle_not_lt in H.
      * apply Qltb_ge in E2. done.
Qed.

Lemma out_of_range_cases (v : pyval) (lo hi : Z) :
  py_or (py_lt v lo) (py_gt v hi) = Ok false ∨
  py_or (py_lt v lo) (py_gt v hi) = Ok true ∨
  py_or (py_lt v lo) (py_gt v hi) = Raise TypeError.
Proof.
  destruct v as [|b|n|f|s|l|d]; simpl; auto;
    match goal with |- context [if ?c then _ else _] => destruct c end ||
    match goal with |- context [match ?c with _ => _ end] => destruct c end; auto;
    match goal with |- context [Ok ?c] => destruct c end; auto.
Qed.

(** ** Lemmas on [Config] *)

(** [__init__] reads the file twice, before and after the checks; the file
    system does not change in between, so both reads give the same
    values. *)
Lemma Config_new_eq (fs : filesystem) (path : string) :
  Config_new fs path =
  dto ← file_dto fs path; validate_dto dto;; Ok (constructed path dto).
Proof.
  unfold Config_new, Config__init__, _validate_config_content, file_dto.
  cbn [path_to_config config].
  destruct (_extract_config_content fs _) as [dto|e]; [|done]. simpl.
  by destruct (validate_dto dto) as [[]|e].
Qed.

(** When [__init__] raises, [self.config] was never assigned. *)
Lemma Config__init__raise (fs : filesystem) (path : string) (self : Config) (e : exn) :
  Config__init__ fs {| path_to_config := None; config := None |} path = (self, Raise e) →
  self = {| path_to_config := Some path; config := None |}.
Proof.
  unfold Config__init__. cbn [path_to_config config].
  destruct (_validate_config_content fs _) as [[]|e1]; [|congruence].
  destruct (_extract_config_content fs _) as [dto|e2]; congruence.
Qed.

Lemma Config__init__new (fs : filesystem) (path : string) (e : exn) :
  Config_new fs path = Raise e →
  Config__init__ fs {| path_to_config := None; config := None |} path =
  ({| path_to_config := Some path; config := None |}, Raise e).
Proof.
  unfold Config_new.
  destruct (Config__init__ fs _ path) as [self [[]|e1]] eqn:E; [done|].
  intros [= ->]. by rewrite (Config__init__raise _ _ _ _ E).
Qed.

Lemma count_rule_iff (dto : ConfigDTO) :
  count_rule dto ↔
  within 1 150 (total_articles dto) ∧ isinstance_int (total_articles dto) = true.
Proof.
  unfold count_rule. destruct (total_articles dto) as [|b|n|f|s|l|d]; simpl;
    split; try (intros [n' [[=] _]]; fail); try (intros [_ [=]]; fail).
  - intros [n' [[= <-] H]]. done.
  - intros [H _]. by exists (Z.b2z b).
  - intros [n' [[= <-] H]]. done.
  - intros [H _]. by exists n.
Qed.

Lemma isinstance_dict_true (v : pyval) :
  isinstance_dict v = true ↔ ∃ d, v = PyDict d.
Proof. destruct v; simpl; split; try done; try (by intros [? [=]]); eauto. Qed.

Lemma isinstance_str_true (v : pyval) :
  isinstance_str v = true ↔ ∃ s, v = PyStr s.
Proof. destruct v; simpl; split; try done; try (by intros [? [=]]); eauto. Qed.

Lemma isinstance_bool_true (v : pyval) :
  isinstance_bool v = true ↔ ∃ b, v = PyBool b.
Proof. destruct v; simpl; split; try done; try (by intros [? [=]]); eauto. Qed.

Lemma validate_dto_seeds (dto : ConfigDTO) :
  seed_rule dto → validate_dto dto = checks_after_seeds dto.
Proof.
  intros [seeds [Hit Hall]]. apply all_startswith_true in Hall.
  unfold validate_dto. rewrite Hit. simpl. rewrite Hall. done.
Qed.

Lemma checks_after_seeds_count (dto : ConfigDTO) :
  count_rule dto → checks_after_seeds dto = checks_after_count dto.
Proof.
  intros [Hw Hi]%count_rule_iff. apply out_of_range_false in Hw.
  unfold checks_after_seeds. rewrite Hw. simpl. rewrite Hi. done.
Qed.

Lemma checks_after_count_Ok (dto : ConfigDTO) :
  checks_after_count dto = Ok () ↔
  headers_rule dto ∧ encoding_rule dto ∧ timeout_rule dto ∧ headless_rule dto.
Proof.
  unfold checks_after_count, headers_rule, encoding_rule, timeout_rule, headless_rule.
  rewrite <- isinstance_dict_true, <- isinstance_str_true, <- isinstance_bool_true,
    <- out_of_range_false.
  destruct (isinstance_dict (headers dto)); simpl; [|intuition congruence].
  destruct (isinstance_str (encoding dto)); simpl; [|intuition congruence].
  destruct (out_of_range_cases (timeout dto) 1 60) as [->|[->| ->]]; simpl;
    [|intuition congruence..].
  destruct (isinstance_bool (headless_mode dto)); simpl; intuition congruence.
Qed.

Lemma checks_after_seeds_Ok (dto : ConfigDTO) :
  checks_after_seeds dto = Ok () ↔ count_rule dto ∧ checks_after_count dto = Ok ().
Proof.
  rewrite count_rule_iff, <- out_of_range_false. unfold checks_after_seeds.
  destruct (out_of_range_cases (total_articles dto) 1 150) as [->|[->| ->]]; simpl;
    [|intuition congruence..].
  destruct (isinstance_int (total_articles dto)); simpl; intuition congruence.
Qed.

Lemma validate_dto_Ok_seeds (dto : ConfigDTO) :
  validate_dto dto = Ok () → seed_rule dto.
Proof.
  unfold validate_dto, seed_rule.
  destruct (py_iter (seed_urls dto)) as [seeds|] eqn:Hit; [|done]. simpl.
  destruct (all_startswith seeds) as [[]|] eqn:Hall; try done.
  intros _. exists seeds. split; [done|]. by apply all_startswith_true.
Qed.

(** Validation passes exactly when the six rules hold. *)
Lemma validate_dto_Ok (dto : ConfigDTO) :
  validate_dto dto = Ok () ↔ rules_hold dto.
Proof.
  unfold rules_hold. rewrite <- checks_after_count_Ok. split.
  - intros H. pose proof (validate_dto_Ok_seeds _ H) as Hs.
    rewrite (validate_dto_seeds _ Hs) in H.
    apply checks_after_seeds_Ok in H. tauto.
  - intros (Hs & Hc & H). rewrite (validate_dto_seeds _ Hs).
    apply checks_after_seeds_Ok. tauto.
Qed.

Lemma validate_dto_cases (dto : ConfigDTO) :
  validate_dto dto = Ok () ∨ ∃ e, validate_dto dto = Raise e.
Proof. destruct (validate_dto dto) as [[]|e]; eauto. Qed.

Lemma py_iter_raise (v : pyval) (e : exn) :
  py_iter v = Raise e → e = TypeError.
Proof. destruct v; simpl; congruence. Qed.

Lemma all_startswith_raise (seeds : list pyval) (e : exn) :
  all_startswith seeds = Raise e → e = AttributeError.
Proof.
  induction seeds as [|v seeds IH]; cbn [all_startswith]; [done|].
  destruct v as [| | | |s| |]; try congruence.
  destruct (startswith s seed_prefixes); [exact IH | congruence].
Qed.

Lemma not_prefixed (s : string) :
  startswith s seed_prefixes = false → ¬ http_www_prefixed s.
Proof. intros H Hp. apply startswith_seed in Hp. congruence. Qed.

Lemma Config_new_Ok (fs : filesystem) (path : string) (dto : ConfigDTO) :
  file_dto fs path = Ok dto → rules_hold dto →
  Config_new fs path = Ok (constructed path dto).
Proof.
  intros Hfile Hrules. rewrite Config_new_eq, Hfile. simpl.
  apply validate_dto_Ok in Hrules. by rewrite Hrules.
Qed.

Lemma Config_new_Ok_inv (fs : filesystem) (path : string) (self : Config) :
  Config_new fs path = Ok self →
  ∃ dto, file_dto fs path = Ok dto ∧ self = constructed path dto ∧ rules_hold dto.
Proof.
  rewrite Config_new_eq. destruct (file_dto fs path) as [dto|e]; [|done]. simpl.
  destruct (validate_dto dto) as [[]|e] eqn:Hv; [|done]. simpl.
  intros [= <-]. exists dto. by rewrite <- validate_dto_Ok.
Qed.

Lemma Config_new_validate (fs : filesystem) (path : string) (dto : ConfigDTO) (e : exn) :
  file_dto fs path = Ok dto →
  (Config_new fs path = Raise e ↔ validate_dto dto = Raise e).
Proof.
  intros Hfile. rewrite Config_new_eq, Hfile. simpl.
  destruct (validate_dto dto) as [[]|e1]; simpl; split; congruence.
Qed.

(** ** Construction of a [Config] *)

(** Construction is all-or-nothing for the checks the validation makes.
    Whatever the configuration file holds, if its values fail one of these
    checks, [Config(path)] raises, [__init__] ends with [self.config]
    unassigned and the caller gets no object; and every [Config] that is
    returned holds exactly the values of the file, all of which pass every
    check.  The timeout check is weaker than the rule for the timeout, see
    [Config_constructed_against_timeout_rule]. *)
Theorem Config_all_or_nothing (fs : filesystem) (path : string) (dto : ConfigDTO)
  (Hfile : file_dto fs path = Ok dto) :
  (¬ rules_hold dto →
   ∃ e, Config_new fs path = Raise e ∧
        Config__init__ fs {| path_to_config := None; config := None |} path =
        ({| path_to_config := Some path; config := None |}, Raise e)) ∧
  (∀ self, Config_new fs path = Ok self →
           self = constructed path dto ∧ rules_hold dto).
Proof.
  split.
  - intros Hbad. destruct (validate_dto_cases dto) as [Hv|[e Hv]].
    + by apply validate_dto_Ok in Hv.
    + exists e. apply (Config_new_validate _ _ _ _ Hfile) in Hv.
      split; [done|]. by apply Config__init__new.
  - intros self (dto' & Hfile' & -> & Hrules)%Config_new_Ok_inv.
    rewrite Hfile in Hfile'. by injection Hfile' as <-.
Qed.

Lemma Config_all_or_nothing_witness :
  ∃ e, Config_new
         (Inputs.disk (Inputs.config_json Inputs.good_seeds
                           (PyInt 5) (PyInt 10) (PyBool true) (PyStr "no")))
         "scrapper_config.json" = Raise e.
Proof.
  destruct (Config_all_or_nothing
              (Inputs.disk (Inputs.config_json Inputs.good_seeds
                                (PyInt 5) (PyInt 10) (PyBool true) (PyStr "no")))
              "scrapper_config.json"
              (Inputs.config_dto Inputs.good_seeds
                 (PyInt 5) (PyInt 10) (PyBool true) (PyStr "no"))
              eq_refl) as [Hbad _].
  destruct Hbad as [e [He _]].
  - intros (_ & _ & _ & _ & _ & [b Hb]). discriminate Hb.
  - by exists e.
Defined.

(** C1.  Construction is not all-or-nothing for the rules as they are
    stated.  The timeout 30.5 is not an integer in [1, 60], so the
    configuration violates the timeout rule; yet [__init__] returns, with
    [self.config] assigned and holding that timeout, and the caller gets the
    [Config]. *)
Theorem Config_constructed_against_timeout_rule :
  ¬ stated_timeout_rule
      (Inputs.config_dto Inputs.good_seeds
         (PyInt 5) Inputs.fractional_timeout (PyBool true) (PyBool false)) ∧
  Config__init__
    (Inputs.disk (Inputs.config_json Inputs.good_seeds
                    (PyInt 5) Inputs.fractional_timeout (PyBool true) (PyBool false)))
    {| path_to_config := None; config := None |} "scrapper_config.json" =
  ({| path_to_config := Some "scrapper_config.json"%string;
      config := Some (Inputs.config_dto Inputs.good_seeds
                        (PyInt 5) Inputs.fractional_timeout (PyBool true) (PyBool false)) |},
   Ok ()) ∧
  get_timeout
    (constructed "scrapper_config.json"
       (Inputs.config_dto Inputs.good_seeds
          (PyInt 5) Inputs.fractional_timeout (PyBool true) (PyBool false))) =
  Ok Inputs.fractional_timeout.
Proof.
  split; [|split; reflexivity].
  intros [n [Hn _]]. discriminate Hn.
Qed.

(** ** The rules one by one *)

(** An integer timeout outside [1, 60] is refused with the timeout error
    once the earlier checks have passed. *)
Lemma timeout_out_of_range (fs : filesystem) (path : string) (dto : ConfigDTO) (t : Z) :
  file_dto fs path = Ok dto →
  seed_rule dto → count_rule dto → headers_rule dto → encoding_rule dto →
  timeout dto = PyInt t → t < 1 ∨ 60 < t →
  Config_new fs path = Raise (PyException "IncorrectTimeoutError").
Proof.
  intros Hfile Hs Hc Hh He Ht Hout.
  apply (Config_new_validate _ _ _ _ Hfile).
  rewrite (validate_dto_seeds _ Hs), (checks_after_seeds_count _ Hc).
  apply isinstance_dict_true in Hh. apply isinstance_str_true in He.
  unfold checks_after_count. rewrite Hh, He, Ht. simpl.
  destruct (Z.ltb_spec t 1); simpl; [done|].
  destruct (Z.ltb_spec 60 t); simpl; [done|lia].
Qed.

(** C5.  The timeout check compares the value with 1 and 60 and does not ask
    for an [int]: the timeout 30.5 passes, and the [Config] is constructed
    with it. *)
Theorem fractional_timeout_accepted :
  Config_new
    (Inputs.disk (Inputs.config_json Inputs.good_seeds
                      (PyInt 5) Inputs.fractional_timeout (PyBool true) (PyBool false)))
    "scrapper_config.json" =
  Ok (constructed "scrapper_config.json"
        (Inputs.config_dto Inputs.good_seeds
           (PyInt 5) Inputs.fractional_timeout (PyBool true) (PyBool false))).
Proof. reflexivity. Qed.

(** A timeout that is not a number makes the comparison itself raise. *)
Example textual_timeout_type_error :
  Config_new
    (Inputs.disk (Inputs.config_json Inputs.good_seeds
                    (PyInt 5) (PyStr "10") (PyBool true) (PyBool false)))
    "scrapper_config.json" = Raise TypeError.
Proof. reflexivity. Qed.



(** C7.  Article count.  With seed URLs that pass, an integer count below 1
    or above 150 raises [Exception('NumberOfArticlesOutOfRangeError')].  An
    integer count from 1 to 150 passes the rule: construction raises neither
    of the two count errors, and succeeds when the other rules hold.  The
    count must be an integer: a configuration is constructed only when its
    count is a Python [int] (an [int], or a [bool] as 0 or 1) from 1 to
    150. *)
Theorem article_count_bounds (fs : filesystem) (path : string) (dto : ConfigDTO)
  (Hfile : file_dto fs path = Ok dto) :
  (∀ n, seed_rule dto → total_articles dto = PyInt n → n < 1 ∨ 150 < n →
     Config_new fs path = Raise (PyException "NumberOfArticlesOutOfRangeError")) ∧
  (∀ n, total_articles dto = PyInt n → 1 ≤ n ≤ 150 →
     Config_new fs path ≠ Raise (PyException "NumberOfArticlesOutOfRangeError") ∧
     Config_new fs path ≠ Raise (PyException "IncorrectNumberOfArticlesError") ∧
     (seed_rule dto → headers_rule dto → encoding_rule dto → timeout_rule dto →
      headless_rule dto → Config_new fs path = Ok (constructed path dto))) ∧
  (∀ self, Config_new fs path = Ok self →
     ∃ n, int_value (total_articles dto) = Some n ∧ 1 ≤ n ≤ 150).
Proof.
  split; [|split].
  - intros n Hs Hn Hout. apply (Config_new_validate _ _ _ _ Hfile).
    rewrite (validate_dto_seeds _ Hs). unfold checks_after_seeds.
    rewrite Hn. simpl.
    destruct (Z.ltb_spec n 1); simpl; [done|].
    destruct (Z.ltb_spec 150 n); simpl; [done|lia].
  - intros n Hn Hin.
    assert (count_rule dto) as Hc by (exists n; by rewrite Hn).
    assert (∀ e, checks_after_seeds dto = Raise e →
                 e ≠ PyException "NumberOfArticlesOutOfRangeError" ∧
                 e ≠ PyException "IncorrectNumberOfArticlesError") as Hafter.
    { intros e. rewrite (checks_after_seeds_count _ Hc). unfold checks_after_count.
      destruct (isinstance_dict (headers dto)); simpl; [|by intros [= <-]].
      destruct (isinstance_str (encoding dto)); simpl; [|by intros [= <-]].
      destruct (out_of_range_cases (timeout dto) 1 60) as [->|[->| ->]]; simpl;
        [|by intros [= <-]..].
      destruct (isinstance_bool (headless_mode dto)); simpl; [done|by intros [= <-]]. }
    assert (∀ e, validate_dto dto = Raise e →
                 e ≠ PyException "NumberOfArticlesOutOfRangeError" ∧
                 e ≠ PyException "IncorrectNumberOfArticlesError") as Hall.
    { intros e. unfold validate_dto.
      destruct (py_iter (seed_urls dto)) as [seeds|e1] eqn:Hiter; simpl;
        [|apply py_iter_raise in Hiter as ->; by intros [= <-]].
      destruct (all_startswith seeds) as [[]|e1] eqn:Hseeds; simpl.
      - apply Hafter.
      - by intros [= <-].
      - apply all_startswith_raise in Hseeds as ->. by intros [= <-]. }
    split; [|split].
    + intros H. apply (Config_new_validate _ _ _ _ Hfile) in H.
      by destruct (Hall _ H).
    + intros H. apply (Config_new_validate _ _ _ _ Hfile) in H.
      by destruct (Hall _ H).
    + intros. by apply Config_new_Ok.
  - intros self (dto' & Hfile' & -> & Hrules)%Config_new_Ok_inv.
    rewrite Hfile in Hfile'. injection Hfile' as <-. apply Hrules.
Qed.

Lemma article_count_bounds_witness :
  Config_new
    (Inputs.disk (Inputs.config_json Inputs.good_seeds
                      (PyInt 151) (PyInt 10) (PyBool true) (PyBool false)))
    "scrapper_config.json" = Raise (PyException "NumberOfArticlesOutOfRangeError").
Proof.
  destruct (article_count_bounds
              (Inputs.disk (Inputs.config_json Inputs.good_seeds
                                (PyInt 151) (PyInt 10) (PyBool true) (PyBool false)))
              "scrapper_config.json"
              (Inputs.config_dto Inputs.good_seeds
                 (PyInt 151) (PyInt 10) (PyBool true) (PyBool false))
              eq_refl) as [Hout _].
  apply (Hout 151).
  - exists (PyStr <$> Inputs.good_seeds). split; [reflexivity|].
    apply all_startswith_true. reflexivity.
  - reflexivity.
  - right. lia.
Defined.

(** The four boundary counts of the rule, evaluated. *)
Example article_count_0 :
  Config_new
    (Inputs.disk (Inputs.config_json Inputs.good_seeds
                      (PyInt 0) (PyInt 10) (PyBool true) (PyBool false)))
    "scrapper_config.json" = Raise (PyException "NumberOfArticlesOutOfRangeError").
Proof. reflexivity. Qed.

Example article_count_1 :
  Config_new
    (Inputs.disk (Inputs.config_json Inputs.good_seeds
                      (PyInt 1) (PyInt 10) (PyBool true) (PyBool false)))
    "scrapper_config.json" =
  Ok (constructed "scrapper_config.json"
        (Inputs.config_dto Inputs.good_seeds
           (PyInt 1) (PyInt 10) (PyBool true) (PyBool false))).
Proof. reflexivity. Qed.

Example article_count_150 :
  Config_new
    (Inputs.disk (Inputs.config_json Inputs.good_seeds
                      (PyInt 150) (PyInt 10) (PyBool true) (PyBool false)))
    "scrapper_config.json" =
  Ok (constructed "scrapper_config.json"
        (Inputs.config_dto Inputs.good_seeds
           (PyInt 150) (PyInt 10) (PyBool true) (PyBool false))).
Proof. reflexivity. Qed.

(** A fractional count inside the bounds reaches the [isinstance] check. *)
Example article_count_fractional :
  Config_new
    (Inputs.disk (Inputs.config_json Inputs.good_seeds
                      (PyFloat (FFin (5 # 2))) (PyInt 10) (PyBool true) (PyBool false)))
    "scrapper_config.json" = Raise (PyException "IncorrectNumberOfArticlesError").
Proof. reflexivity. Qed.

Lemma checks_after_count_verify (dto : ConfigDTO) :
  checks_after_count dto = Raise (PyException "IncorrectVerifyError") ↔
  headers_rule dto ∧ encoding_rule dto ∧ timeout_rule dto ∧ ¬ headless_rule dto.
Proof.
  unfold checks_after_count, headers_rule, encoding_rule, timeout_rule, headless_rule.
  rewrite <- isinstance_dict_true, <- isinstance_str_true, <- isinstance_bool_true,
    <- out_of_range_false.
  destruct (isinstance_dict (headers dto)); simpl; [|intuition congruence].
  destruct (isinstance_str (encoding dto)); simpl; [|intuition congruence].
  destruct (out_of_range_cases (timeout dto) 1 60) as [->|[->| ->]]; simpl;
    [|intuition congruence..].
  destruct (isinstance_bool (headless_mode dto)); simpl; intuition congruence.
Qed.

Lemma checks_after_seeds_verify (dto : ConfigDTO) :
  checks_after_seeds dto = Raise (PyException "IncorrectVerifyError") ↔
  count_rule dto ∧ checks_after_count dto = Raise (PyException "IncorrectVerifyError").
Proof.
  rewrite count_rule_iff, <- out_of_range_false. unfold checks_after_seeds.
  destruct (out_of_range_cases (total_articles dto) 1 150) as [->|[->| ->]]; simpl;
    [|intuition congruence..].
  destruct (isinstance_int (total_articles dto)); simpl; intuition congruence.
Qed.

(** [Exception('IncorrectVerifyError')] comes out of the validation exactly
    when the headless flag is the one rule that is broken. *)
Lemma validate_dto_verify (dto : ConfigDTO) :
  validate_dto dto = Raise (PyException "IncorrectVerifyError") ↔
  seed_rule dto ∧ count_rule dto ∧ headers_rule dto ∧ encoding_rule dto ∧
  timeout_rule dto ∧ ¬ headless_rule dto.
Proof.
  rewrite <- checks_after_count_verify. split.
  - intros H. assert (seed_rule dto) as Hs.
    { revert H. unfold validate_dto, seed_rule.
      destruct (py_iter (seed_urls dto)) as [seeds|e1] eqn:Hiter; simpl;
        [|apply py_iter_raise in Hiter as ->; done].
      destruct (all_startswith seeds) as [[]|e1] eqn:Hseeds; simpl.
      - intros _. exists seeds. split; [done|]. by apply all_startswith_true.
      - done.
      - apply all_startswith_raise in Hseeds as ->. done. }
    rewrite (validate_dto_seeds _ Hs) in H.
    apply checks_after_seeds_verify in H. tauto.
  - intros (Hs & Hc & H). rewrite (validate_dto_seeds _ Hs).
    apply checks_after_seeds_verify. tauto.
Qed.

(** C8.  The headless flag.  A configuration whose headless flag is not a
    [bool] is never constructed, and the rule has an error of its own:
    [Exception('IncorrectVerifyError')] is raised exactly when the headless
    flag is not a [bool] while the seed, count, headers, encoding and
    timeout rules hold, so no violation of another rule raises it. *)
Theorem headless_flag_validation (fs : filesystem) (path : string) (dto : ConfigDTO)
  (Hfile : file_dto fs path = Ok dto) :
  ((∀ b, headless_mode dto ≠ PyBool b) → ∃ e, Config_new fs path = Raise e) ∧
  (Config_new fs path = Raise (PyException "IncorrectVerifyError") ↔
   seed_rule dto ∧ count_rule dto ∧ headers_rule dto ∧ encoding_rule dto ∧
   timeout_rule dto ∧ ∀ b, headless_mode dto ≠ PyBool b).
Proof.
  assert (¬ headless_rule dto ↔ ∀ b, headless_mode dto ≠ PyBool b) as Hno.
  { unfold headless_rule. split; [intros H b Hb; apply H; eauto | intros H [b Hb]; by apply (H b)]. }
  split.
  - intros Hflag. destruct (validate_dto_cases dto) as [Hv|[e Hv]].
    + apply validate_dto_Ok in Hv. destruct Hv as (_ & _ & _ & _ & _ & Hh).
      by apply Hno in Hflag.
    + exists e. by apply (Config_new_validate _ _ _ _ Hfile).
  - rewrite (Config_new_validate _ _ _ _ Hfile), validate_dto_verify, Hno. done.
Qed.

Lemma headless_flag_validation_witness :
  Config_new
    (Inputs.disk (Inputs.config_json Inputs.good_seeds
                      (PyInt 5) (PyInt 10) (PyBool true) (PyInt 1)))
    "scrapper_config.json" = Raise (PyException "IncorrectVerifyError").
Proof.
  destruct (headless_flag_validation
              (Inputs.disk (Inputs.config_json Inputs.good_seeds
                                (PyInt 5) (PyInt 10) (PyBool true) (PyInt 1)))
              "scrapper_config.json"
              (Inputs.config_dto Inputs.good_seeds
                 (PyInt 5) (PyInt 10) (PyBool true) (PyInt 1))
              eq_refl) as [_ [_ Hkind]].
  apply Hkind. repeat split.
  - exists (PyStr <$> Inputs.good_seeds). split; [reflexivity|].
    apply all_startswith_true. reflexivity.
  - exists 5. split; [reflexivity|lia].
  - by eexists.
  - by eexists.
  - simpl. lia.
  - simpl. lia.
  - intros b Hb. discriminate Hb.
Defined.

(** ** The certificate flag *)

Lemma validate_dto_with_verify (v : pyval) (dto : ConfigDTO) :
  validate_dto (with_verify v dto) = validate_dto dto.
Proof. reflexivity. Qed.

(** C10.  Validation never looks at [should_verify_certificate].  Take two
    configuration files that differ at most in that value, whatever it is:
    construction has the same outcome for both, the same exception or a
    [Config] that stores the given value, [bool] or not. *)
Theorem verify_flag_unchecked (fs fs' : filesystem) (path : string)
  (dto : ConfigDTO) (v : pyval)
  (Hfile : file_dto fs path = Ok dto)
  (Hfile' : file_dto fs' path = Ok (with_verify v dto)) :
  (Config_new fs path = Ok (constructed path dto) →
   Config_new fs' path = Ok (constructed path (with_verify v dto))) ∧
  (∀ e, Config_new fs path = Raise e → Config_new fs' path = Raise e).
Proof.
  rewrite !Config_new_eq, Hfile, Hfile'. simpl.
  rewrite validate_dto_with_verify.
  destruct (validate_dto dto) as [[]|e1]; simpl; split; congruence.
Qed.

Lemma verify_flag_unchecked_witness :
  Config_new
    (Inputs.disk (Inputs.config_json Inputs.good_seeds
                      (PyInt 5) (PyInt 10) (PyStr "maybe") (PyBool false)))
    "scrapper_config.json" =
  Ok (constructed "scrapper_config.json"
        (Inputs.config_dto Inputs.good_seeds
           (PyInt 5) (PyInt 10) (PyStr "maybe") (PyBool false))).
Proof.
  apply (verify_flag_unchecked Inputs.good_disk
           (Inputs.disk (Inputs.config_json Inputs.good_seeds
                             (PyInt 5) (PyInt 10) (PyStr "maybe") (PyBool false)))
           "scrapper_config.json" Inputs.good_dto (PyStr "maybe")
           eq_refl eq_refl).
  reflexivity.
Defined.

(** ** make_request *)

(** The one call [make_request] makes: the URL, the headers and the timeout
    of the configuration, and no [verify] argument. *)
Lemma make_request_call (requests_get : get_kwargs → result Response)
    (url path : string) (dto : ConfigDTO) :
  make_request requests_get url (constructed path dto) =
  requests_get {| kw_url := url; kw_headers := Some (headers dto);
                  kw_timeout := Some (timeout dto); kw_verify := None |}.
Proof. reflexivity. Qed.

(** The call is the same whatever the certificate flag of the
    configuration. *)
Lemma make_request_verify_unused (requests_get : get_kwargs → result Response)
    (url path : string) (dto : ConfigDTO) (v : pyval) :
  make_request requests_get url (constructed path (with_verify v dto)) =
  make_request requests_get url (constructed path dto).
Proof. reflexivity. Qed.

(** C3.  The certificate flag of the configuration does not reach the
    request.  With [should_verify_certificate] false, a host with a
    self-signed certificate, which answers a request that skips
    verification, gets a verifying request and the call ends in the
    certificate error of [requests]. *)
Theorem make_request_drops_verify :
  should_verify_certificate
    (Inputs.config_dto Inputs.good_seeds
       (PyInt 5) (PyInt 10) (PyBool false) (PyBool false)) = PyBool false ∧
  make_request Inputs.self_signed_host "https://www.site.com/news"
    (constructed "scrapper_config.json"
       (Inputs.config_dto Inputs.good_seeds
          (PyInt 5) (PyInt 10) (PyBool false) (PyBool false))) =
  Raise RequestsSSLError.
Proof. split; reflexivity. Qed.

(** C4, as stated, fails: when the host does not answer in time,
    [make_request] raises the timeout exception of [requests] and returns
    nothing. *)
Lemma make_request_raises_timeout :
  make_request Inputs.silent_host "https://www.site.com/news"
    (constructed "scrapper_config.json" Inputs.good_dto) = Raise RequestsTimeout ∧
  ¬ ∃ response,
      make_request Inputs.silent_host "https://www.site.com/news"
        (constructed "scrapper_config.json" Inputs.good_dto) = Ok response.
Proof. split; [reflexivity|]. intros [response H]. discriminate H. Qed.

(** C4, amended.  [make_request] hands on the outcome of its [requests.get]
    call unchanged: a response is returned as it is, with its status code,
    2xx or not, and an exception raised by [requests] (timeout, connection
    or DNS failure, certificate failure) is raised to the caller. *)
Theorem make_request_outcome (requests_get : get_kwargs → result Response)
    (url : string) (cfg : Config) (dto : ConfigDTO)
  (Hcfg : config cfg = Some dto) :
  (∀ response,
     requests_get {| kw_url := url; kw_headers := Some (headers dto);
                     kw_timeout := Some (timeout dto); kw_verify := None |} = Ok response →
     make_request requests_get url cfg = Ok response) ∧
  (∀ e,
     requests_get {| kw_url := url; kw_headers := Some (headers dto);
                     kw_timeout := Some (timeout dto); kw_verify := None |} = Raise e →
     make_request requests_get url cfg = Raise e).
Proof.
  unfold make_request, get_headers, get_timeout. rewrite Hcfg. simpl.
  split; intros ? H; exact H.
Qed.

Lemma make_request_outcome_witness :
  make_request Inputs.missing_page_host "https://www.site.com/gone"
    (constructed "scrapper_config.json" Inputs.good_dto) =
  Ok {| status_code := 404; content := "" |}.
Proof.
  apply (make_request_outcome Inputs.missing_page_host "https://www.site.com/gone"
           (constructed "scrapper_config.json" Inputs.good_dto)
           Inputs.good_dto eq_refl).
  reflexivity.
Defined.

(** ** prepare_environment *)

Section EnvironmentFacts.
Variable ASSETS_PATH : string.

(** No directory at [ASSETS_PATH]: [os.rmdir] raises. *)
Lemma prepare_environment_absent (fs : filesystem) (base_path : string) :
  fs !! ASSETS_PATH = None →
  prepare_environment ASSETS_PATH fs base_path = (fs, Raise FileNotFoundError).
Proof.
  intros H. unfold prepare_environment, assets_is_nonempty_dir, os_path_isdir, os_rmdir.
  by rewrite H.
Qed.

(** A directory with entries: the removal is skipped and [os.mkdir]
    raises; the entries stay. *)
Lemma prepare_environment_nonempty (fs : filesystem) (base_path entry : string)
    (entries : list string) :
  fs !! ASSETS_PATH = Some (Dir (entry :: entries)) →
  prepare_environment ASSETS_PATH fs base_path = (fs, Raise FileExistsError).
Proof.
  intros H.
  unfold prepare_environment, assets_is_nonempty_dir, os_path_isdir, os_listdir, os_mkdir.
  rewrite H. simpl. by rewrite H.
Qed.

(** An empty directory: removed and created again. *)
Lemma prepare_environment_empty (fs : filesystem) (base_path : string) :
  fs !! ASSETS_PATH = Some (Dir []) →
  prepare_environment ASSETS_PATH fs base_path = (fs, Ok ()).
Proof.
  intros H.
  unfold prepare_environment, assets_is_nonempty_dir, os_path_isdir, os_listdir,
    os_rmdir, os_mkdir.
  rewrite H. simpl. rewrite lookup_delete_eq.
  by rewrite insert_delete_eq, insert_id.
Qed.

(** A regular file at [ASSETS_PATH]: [os.rmdir] raises. *)
Lemma prepare_environment_file (fs : filesystem) (base_path : string)
    (parsed : option pyval) :
  fs !! ASSETS_PATH = Some (File parsed) →
  prepare_environment ASSETS_PATH fs base_path = (fs, Raise NotADirectoryError).
Proof.
  intros H. unfold prepare_environment, assets_is_nonempty_dir, os_path_isdir, os_rmdir.
  by rewrite H.
Qed.

(** The call returns only from an empty directory, and leaves it as it
    was; so a second call returns too. *)
Lemma prepare_environment_Ok (fs fs' : filesystem) (base_path : string) :
  prepare_environment ASSETS_PATH fs base_path = (fs', Ok ()) →
  fs !! ASSETS_PATH = Some (Dir []) ∧ fs' = fs.
Proof.
  destruct (fs !! ASSETS_PATH) as [[parsed|[|entry entries]]|] eqn:H.
  - by rewrite (prepare_environment_file _ _ _ H).
  - rewrite (prepare_environment_empty _ _ H). by intros [= <-].
  - by rewrite (prepare_environment_nonempty _ _ _ _ H).
  - by rewrite (prepare_environment_absent _ _ H).
Qed.
(** After a call that returned, a second call returns and the directory is
    empty both times. *)
Lemma prepare_environment_twice (fs fs' : filesystem) (base_path : string) :
  prepare_environment ASSETS_PATH fs base_path = (fs', Ok ()) →
  fs' !! ASSETS_PATH = Some (Dir []) ∧
  prepare_environment ASSETS_PATH fs' base_path = (fs', Ok ()).
Proof.
  intros [H ->]%prepare_environment_Ok. split; [done|].
  by apply prepare_environment_empty.
Qed.
End EnvironmentFacts.

(** C2.  [prepare_environment] does not reset the directory.  Where
    [ASSETS_PATH] does not exist it raises [FileNotFoundError] and creates
    nothing; where it is a directory with articles it raises
    [FileExistsError] and the articles stay. *)
Theorem prepare_environment_fails :
  prepare_environment Inputs.assets ∅ Inputs.assets =
  (∅, Raise FileNotFoundError) ∧
  prepare_environment Inputs.assets Inputs.disk_with_articles Inputs.assets =
  (Inputs.disk_with_articles, Raise FileExistsError).
Proof.
  split.
  - by apply prepare_environment_absent.
  - by eapply prepare_environment_nonempty.
Qed.

(** ** class Crawler *)

(** The declared [find_articles] returns [None] and leaves the instance as
    it was. *)
Lemma Crawler_find_articles_declared (self : Crawler) :
  Crawler_find_articles self = (self, Ok PyNone).
Proof. reflexivity. Qed.


(** ** Reading the configuration file *)

Lemma file_dto_open (fs : filesystem) (path : string) :
  file_dto fs path =
  config ← open_json_load fs path;
  a ← py_getitem config "seed_urls";
  b ← py_getitem config "total_articles_to_find_and_parse";
  c ← py_getitem config "headers";
  d ← py_getitem config "encoding";
  e ← py_getitem config "timeout";
  f ← py_getitem config "should_verify_certificate";
  g ← py_getitem config "headless_mode";
  Ok {| seed_urls := a; total_articles := b; headers := c; encoding := d;
        timeout := e; should_verify_certificate := f; headless_mode := g |}.
Proof. reflexivity. Qed.

Lemma Config_new_file_raise (fs : filesystem) (path : string) (e : exn) :
  file_dto fs path = Raise e → Config_new fs path = Raise e.
Proof. intros H. by rewrite Config_new_eq, H. Qed.

(** A configuration object that lacks one of the seven keys: construction
    raises [KeyError] for the first key that is missing, in the order
    [_extract_config_content] reads them, whatever the other values are;
    [self.config] is not assigned. *)
Theorem Config_missing_key (fs : filesystem) (path : string)
    (d : list (string * pyval)) (k : string)
  (Hfile : fs !! path = Some (File (Some (PyDict d))))
  (Hmissing : first_missing d config_keys = Some k) :
  Config_new fs path = Raise (KeyError k) ∧
  Config__init__ fs {| path_to_config := None; config := None |} path =
  ({| path_to_config := Some path; config := None |}, Raise (KeyError k)).
Proof.
  assert (Config_new fs path = Raise (KeyError k)) as H.
  { apply Config_new_file_raise. rewrite file_dto_open.
    unfold open_json_load. rewrite Hfile. simpl.
    revert Hmissing. unfold first_missing, config_keys. simpl.
    destruct (dict_get d "seed_urls"); [|by intros [= <-]]. simpl.
    destruct (dict_get d "total_articles_to_find_and_parse"); [|by intros [= <-]]. simpl.
    destruct (dict_get d "headers"); [|by intros [= <-]]. simpl.
    destruct (dict_get d "encoding"); [|by intros [= <-]]. simpl.
    destruct (dict_get d "timeout"); [|by intros [= <-]]. simpl.
    destruct (dict_get d "should_verify_certificate"); [|by intros [= <-]]. simpl.
    destruct (dict_get d "headless_mode"); [|by intros [= <-]]. done. }
  split; [done|]. by apply Config__init__new.
Qed.

Lemma Config_missing_key_witness :
  Config_new
    (Inputs.disk (PyDict [("seed_urls"%string, PyList []);
                          ("total_articles_to_find_and_parse"%string, PyInt 0);
                          ("timeout"%string, PyInt 10)]))
    "scrapper_config.json" = Raise (KeyError "headers").
Proof.
  apply (Config_missing_key
           (Inputs.disk (PyDict [("seed_urls"%string, PyList []);
                                 ("total_articles_to_find_and_parse"%string, PyInt 0);
                                 ("timeout"%string, PyInt 10)]))
           "scrapper_config.json"
           [("seed_urls"%string, PyList []);
            ("total_articles_to_find_and_parse"%string, PyInt 0);
            ("timeout"%string, PyInt 10)]
           "headers" eq_refl eq_refl).
Defined.

(** A path that cannot be loaded as a JSON object: construction raises the
    error of the read, [FileNotFoundError] for no file, [IsADirectoryError]
    for a directory, [JSONDecodeError] for a text that is not JSON, and
    [TypeError] for a JSON value that is not an object. *)
Theorem Config_unreadable (fs : filesystem) (path : string) :
  (fs !! path = None → Config_new fs path = Raise FileNotFoundError) ∧
  (∀ entries, fs !! path = Some (Dir entries) →
     Config_new fs path = Raise IsADirectoryError) ∧
  (fs !! path = Some (File None) → Config_new fs path = Raise JSONDecodeError) ∧
  (∀ j, fs !! path = Some (File (Some j)) → (∀ d, j ≠ PyDict d) →
     Config_new fs path = Raise TypeError).
Proof.
  repeat split.
  - intros H. apply Config_new_file_raise. rewrite file_dto_open.
    unfold open_json_load. by rewrite H.
  - intros entries H. apply Config_new_file_raise. rewrite file_dto_open.
    unfold open_json_load. by rewrite H.
  - intros H. apply Config_new_file_raise. rewrite file_dto_open.
    unfold open_json_load. by rewrite H.
  - intros j H Hj. apply Config_new_file_raise. rewrite file_dto_open.
    unfold open_json_load. rewrite H. simpl.
    destruct j as [| | | | | |d]; try done. by destruct (Hj d).
Qed.

Lemma Config_unreadable_witness :
  Config_new (Inputs.disk (PyList [PyStr "https://www.site.com/news"]))
    "scrapper_config.json" = Raise TypeError.
Proof.
  destruct (Config_unreadable
              (Inputs.disk (PyList [PyStr "https://www.site.com/news"]))
              "scrapper_config.json") as (_ & _ & _ & H).
  apply (H (PyList [PyStr "https://www.site.com/news"]) eq_refl).
  intros d Hd. discriminate Hd.
Defined.

(** ** Construction and the getters *)

(** Validation rejects nothing that passes its checks: for the values of a
    file, construction returns the [Config] holding the path and these
    values exactly when the seeds iterate to strings with the prefix, the
    count is a Python [int] from 1 to 150, the headers are a [dict], the
    encoding is a [str], the timeout is a number that is neither below 1
    nor above 60 (an integer, a fraction, or NaN, which compares false both
    ways) and the headless flag is a [bool]. *)
Theorem Config_construction_iff (fs : filesystem) (path : string) (dto : ConfigDTO)
  (Hfile : file_dto fs path = Ok dto) :
  Config_new fs path =
  Ok {| path_to_config := Some path; config := Some dto |} ↔ rules_hold dto.
Proof.
  rewrite Config_new_eq, Hfile. simpl. rewrite <- validate_dto_Ok.
  destruct (validate_dto dto) as [[]|e]; simpl; split; (done || congruence).
Qed.

Lemma Config_construction_iff_witness :
  Config_new Inputs.good_disk "scrapper_config.json" =
  Ok {| path_to_config := Some "scrapper_config.json"%string;
        config := Some Inputs.good_dto |}.
Proof.
  apply (Config_construction_iff Inputs.good_disk "scrapper_config.json"
           Inputs.good_dto eq_refl).
  repeat split.
  - exists (PyStr <$> Inputs.good_seeds). split; [reflexivity|].
    apply all_startswith_true. reflexivity.
  - exists 5. split; [reflexivity|lia].
  - by eexists.
  - by eexists.
  - simpl. lia.
  - simpl. lia.
  - by eexists.
Defined.

(** The getters of a constructed [Config] give back the values of the
    file, key by key; [get_num_articles] is the key
    [total_articles_to_find_and_parse]. *)
Theorem getters_return_file_values (fs : filesystem) (path : string)
    (j : pyval) (self : Config)
  (Hfile : fs !! path = Some (File (Some j)))
  (Hnew : Config_new fs path = Ok self) :
  get_seed_urls self = py_getitem j "seed_urls" ∧
  get_num_articles self = py_getitem j "total_articles_to_find_and_parse" ∧
  get_headers self = py_getitem j "headers" ∧
  get_encoding self = py_getitem j "encoding" ∧
  get_timeout self = py_getitem j "timeout" ∧
  get_verify_certificate self = py_getitem j "should_verify_certificate" ∧
  get_headless_mode self = py_getitem j "headless_mode".
Proof.
  apply Config_new_Ok_inv in Hnew as (dto & Hdto & -> & _).
  rewrite file_dto_open in Hdto. unfold open_json_load in Hdto.
  rewrite Hfile in Hdto. simpl in Hdto.
  destruct (py_getitem j "seed_urls") as [a|]; [|done]. simpl in Hdto.
  destruct (py_getitem j "total_articles_to_find_and_parse") as [b|]; [|done].
  simpl in Hdto.
  destruct (py_getitem j "headers") as [c|]; [|done]. simpl in Hdto.
  destruct (py_getitem j "encoding") as [d|]; [|done]. simpl in Hdto.
  destruct (py_getitem j "timeout") as [e|]; [|done]. simpl in Hdto.
  destruct (py_getitem j "should_verify_certificate") as [f|]; [|done].
  simpl in Hdto.
  destruct (py_getitem j "headless_mode") as [g|]; [|done]. simpl in Hdto.
  injection Hdto as <-. done.
Qed.

Lemma getters_return_file_values_witness :
  get_num_articles (constructed "scrapper_config.json" Inputs.good_dto) = Ok (PyInt 5).
Proof.
  apply (getters_return_file_values Inputs.good_disk "scrapper_config.json"
           (Inputs.config_json Inputs.good_seeds
              (PyInt 5) (PyInt 10) (PyBool true) (PyBool false))
           (constructed "scrapper_config.json" Inputs.good_dto)
           eq_refl eq_refl).
Defined.

(** What the getters of a constructed [Config] can return: an article
    count that is an integer from 1 to 150, headers that are a [dict], an
    encoding that is a [str], a timeout that is a number neither below 1 nor
    above 60, and a headless flag that is a [bool]; none of them raises. *)
Theorem getters_of_constructed (fs : filesystem) (path : string) (self : Config)
  (Hnew : Config_new fs path = Ok self) :
  (∃ v n, get_num_articles self = Ok v ∧ int_value v = Some n ∧ 1 ≤ n ≤ 150) ∧
  (∃ d, get_headers self = Ok (PyDict d)) ∧
  (∃ s, get_encoding self = Ok (PyStr s)) ∧
  (∃ t, get_timeout self = Ok t ∧ within 1 60 t) ∧
  (∃ b, get_headless_mode self = Ok (PyBool b)) ∧
  (∃ seeds v, get_seed_urls self = Ok seeds ∧ get_verify_certificate self = Ok v).
Proof.
  apply Config_new_Ok_inv in Hnew as (dto & _ & -> & Hrules).
  destruct Hrules as (_ & [n [Hn Hin]] & [d Hd] & [s Hs] & Ht & [b Hb]).
  unfold get_num_articles, get_headers, get_encoding, get_timeout,
    get_headless_mode, get_seed_urls, get_verify_certificate. simpl.
  repeat split.
  - by exists (total_articles dto), n.
  - exists d. by rewrite Hd.
  - exists s. by rewrite Hs.
  - by exists (timeout dto).
  - exists b. by rewrite Hb.
  - by exists (seed_urls dto), (should_verify_certificate dto).
Qed.

Lemma getters_of_constructed_witness :
  ∃ b, get_headless_mode (constructed "scrapper_config.json" Inputs.good_dto) =
       Ok (PyBool b).
Proof.
  destruct (getters_of_constructed Inputs.good_disk "scrapper_config.json"
              (constructed "scrapper_config.json" Inputs.good_dto) eq_refl)
    as (_ & _ & _ & _ & H & _).
  exact H.
Defined.

(** ** Which error the validation raises *)

Lemma out_of_range_true (v : pyval) (lo hi : Z) :
  py_or (py_lt v lo) (py_gt v hi) = Ok true ↔ outside lo hi v.
Proof.
  destruct v as [|b|n|[|neg|q]|s|l|d]; simpl; try done.
  - destruct (Z.ltb_spec (Z.b2z b) lo), (Z.ltb_spec hi (Z.b2z b)); simpl;
      split; (done || (intros; exfalso; lia) || auto).
  - destruct (Z.ltb_spec n lo), (Z.ltb_spec hi n); simpl;
      split; (done || (intros; exfalso; lia) || auto).
  - by destruct neg.
  - destruct (Qltb q (inject_Z lo)) eqn:E1; simpl.
    + apply Qltb_lt in E1. split; auto.
    + apply Qltb_ge in E1. destruct (Qltb (inject_Z hi) q) eqn:E2.
      * apply Qltb_lt in E2. split; auto.
      * apply Qltb_ge in E2. split; [done|].
        intros [H|H]; [by apply Qle_not_lt in E1 | by apply Qle_not_lt in E2].
Qed.

Lemma out_of_range_raise (v : pyval) (lo hi : Z) :
  py_or (py_lt v lo) (py_gt v hi) = Raise TypeError ↔ ¬ is_number v.
Proof.
  destruct v as [|b|n|f|s|l|d]; simpl; try (split; [intros _ H; exact H | done]).
  - split; [|tauto]. by destruct (Z.b2z b <? lo), (lo <? Z.b2z b), (hi <? Z.b2z b).
  - split; [|tauto]. by destruct (n <? lo), (hi <? n).
  - split; [|tauto]. by destruct (float_lt_int f lo), (float_gt_int f hi).
Qed.

(** How the last five checks end. *)
Lemma checks_after_count_raise (dto : ConfigDTO) (e : exn) :
  checks_after_count dto = Raise e ↔
  (¬ headers_rule dto ∧ e = PyException "IncorrectHeadersError") ∨
  (headers_rule dto ∧ ¬ encoding_rule dto ∧ e = PyException "IncorrectEncodingError") ∨
  (headers_rule dto ∧ encoding_rule dto ∧ outside 1 60 (timeout dto) ∧
   e = PyException "IncorrectTimeoutError") ∨
  (headers_rule dto ∧ encoding_rule dto ∧ ¬ is_number (timeout dto) ∧ e = TypeError) ∨
  (headers_rule dto ∧ encoding_rule dto ∧ timeout_rule dto ∧ ¬ headless_rule dto ∧
   e = PyException "IncorrectVerifyError").
Proof.
  unfold checks_after_count, headers_rule, encoding_rule, timeout_rule, headless_rule.
  rewrite <- isinstance_dict_true, <- isinstance_str_true, <- isinstance_bool_true,
    <- out_of_range_false, <- out_of_range_true, <- (out_of_range_raise _ 1 60).
  destruct (isinstance_dict (headers dto)); simpl; [|intuition congruence].
  destruct (isinstance_str (encoding dto)); simpl; [|intuition congruence].
  destruct (out_of_range_cases (timeout dto) 1 60) as [->|[->| ->]]; simpl;
    [|intuition congruence..].
  destruct (isinstance_bool (headless_mode dto)); simpl; intuition congruence.
Qed.

(** How the two count checks end. *)
Lemma checks_after_seeds_raise (dto : ConfigDTO) (e : exn) :
  checks_after_seeds dto = Raise e ↔
  (outside 1 150 (total_articles dto) ∧
   e = PyException "NumberOfArticlesOutOfRangeError") ∨
  (¬ is_number (total_articles dto) ∧ e = TypeError) ∨
  (within 1 150 (total_articles dto) ∧ int_value (total_articles dto) = None ∧
   e = PyException "IncorrectNumberOfArticlesError") ∨
  (count_rule dto ∧ checks_after_count dto = Raise e).
Proof.
  assert (int_value (total_articles dto) = None ↔
          isinstance_int (total_articles dto) = false) as ->
    by (destruct (total_articles dto); simpl; split; congruence).
  rewrite count_rule_iff, <- out_of_range_false, <- out_of_range_true,
    <- (out_of_range_raise _ 1 150).
  unfold checks_after_seeds.
  destruct (out_of_range_cases (total_articles dto) 1 150) as [->|[->| ->]]; simpl;
    [|intuition congruence..].
  destruct (isinstance_int (total_articles dto)); simpl; intuition congruence.
Qed.

(** How the seed check ends. *)
Lemma validate_dto_raise (dto : ConfigDTO) (e : exn) :
  validate_dto dto = Raise e ↔
  (py_iter (seed_urls dto) = Raise TypeError ∧ e = TypeError) ∨
  (∃ seeds, py_iter (seed_urls dto) = Ok seeds ∧ all_startswith seeds = Ok false ∧
            e = PyException "IncorrectSeedURLError") ∨
  (∃ seeds, py_iter (seed_urls dto) = Ok seeds ∧
            all_startswith seeds = Raise AttributeError ∧ e = AttributeError) ∨
  (seed_rule dto ∧ checks_after_seeds dto = Raise e).
Proof.
  split.
  - destruct (py_iter (seed_urls dto)) as [seeds|e1] eqn:Hiter.
    + destruct (all_startswith seeds) as [[]|e1] eqn:Hall.
      * assert (seed_rule dto) as Hs
          by (exists seeds; split; [done|by apply all_startswith_true]).
        rewrite (validate_dto_seeds _ Hs). auto.
      * unfold validate_dto. rewrite Hiter. simpl. rewrite Hall. simpl.
        intros [= <-]. right. left. by exists seeds.
      * unfold validate_dto. rewrite Hiter. simpl. rewrite Hall. simpl.
        intros [= <-]. pose proof (all_startswith_raise _ _ Hall) as ->.
        right. right. left. by exists seeds.
    + unfold validate_dto. rewrite Hiter. simpl. intros [= <-].
      pose proof (py_iter_raise _ _ Hiter) as ->. by left.
  - intros [[Hiter ->]|[(seeds & Hiter & Hall & ->)|[(seeds & Hiter & Hall & ->)|[Hs H]]]].
    + unfold validate_dto. by rewrite Hiter.
    + unfold validate_dto. rewrite Hiter. simpl. by rewrite Hall.
    + unfold validate_dto. rewrite Hiter. simpl. by rewrite Hall.
    + by rewrite (validate_dto_seeds _ Hs).
Qed.

(** The headers and the encoding.  [Exception('IncorrectHeadersError')] is
    raised exactly when the seed and count rules hold and the headers are
    not a [dict]; [Exception('IncorrectEncodingError')] exactly when, in
    addition, the headers are a [dict] and the encoding is not a [str]. *)
Theorem headers_encoding_errors (fs : filesystem) (path : string) (dto : ConfigDTO)
  (Hfile : file_dto fs path = Ok dto) :
  (Config_new fs path = Raise (PyException "IncorrectHeadersError") ↔
   seed_rule dto ∧ count_rule dto ∧ ∀ d, headers dto ≠ PyDict d) ∧
  (Config_new fs path = Raise (PyException "IncorrectEncodingError") ↔
   seed_rule dto ∧ count_rule dto ∧ headers_rule dto ∧ ∀ s, encoding dto ≠ PyStr s).
Proof.
  assert (¬ headers_rule dto ↔ ∀ d, headers dto ≠ PyDict d) as Hh.
  { unfold headers_rule. split; [intros H d Hd; apply H; eauto | intros H [d Hd]; by apply (H d)]. }
  assert (¬ encoding_rule dto ↔ ∀ s, encoding dto ≠ PyStr s) as He.
  { unfold encoding_rule. split; [intros H s Hs; apply H; eauto | intros H [s Hs]; by apply (H s)]. }
  rewrite <- Hh, <- He, !(Config_new_validate _ _ _ _ Hfile), !validate_dto_raise,
    !checks_after_seeds_raise, !checks_after_count_raise.
  split; split.
  - intros [[_ [=]]|[(? & _ & _ & [=])|[(? & _ & _ & [=])|[Hs H]]]].
    destruct H as [[_ [=]]|[[_ [=]]|[(_ & _ & [=])|[Hc H]]]].
    destruct H as [[H _]|[(_ & _ & [=])|[(_ & _ & _ & [=])|[(_ & _ & _ & [=])|(_ & _ & _ & _ & [=])]]]].
    done.
  - intros (Hs & Hc & H). right. right. right. split; [done|].
    right. right. right. split; [done|]. by left.
  - intros [[_ [=]]|[(? & _ & _ & [=])|[(? & _ & _ & [=])|[Hs H]]]].
    destruct H as [[_ [=]]|[[_ [=]]|[(_ & _ & [=])|[Hc H]]]].
    destruct H as [[_ [=]]|[(H1 & H2 & _)|[(_ & _ & _ & [=])|[(_ & _ & _ & [=])|(_ & _ & _ & _ & [=])]]]].
    done.
  - intros (Hs & Hc & H1 & H2). right. right. right. split; [done|].
    right. right. right. split; [done|]. right. by left.
Qed.

Lemma headers_encoding_errors_witness :
  Config_new
    (Inputs.disk (PyDict [("seed_urls"%string, PyList []);
                          ("total_articles_to_find_and_parse"%string, PyInt 3);
                          ("headers"%string, PyList []);
                          ("encoding"%string, PyInt 8);
                          ("timeout"%string, PyInt 0);
                          ("should_verify_certificate"%string, PyNone);
                          ("headless_mode"%string, PyNone)]))
    "scrapper_config.json" = Raise (PyException "IncorrectHeadersError").
Proof.
  destruct (headers_encoding_errors
              (Inputs.disk (PyDict [("seed_urls"%string, PyList []);
                                    ("total_articles_to_find_and_parse"%string, PyInt 3);
                                    ("headers"%string, PyList []);
                                    ("encoding"%string, PyInt 8);
                                    ("timeout"%string, PyInt 0);
                                    ("should_verify_certificate"%string, PyNone);
                                    ("headless_mode"%string, PyNone)]))
              "scrapper_config.json"
              {| seed_urls := PyList []; total_articles := PyInt 3;
                 headers := PyList []; encoding := PyInt 8; timeout := PyInt 0;
                 should_verify_certificate := PyNone; headless_mode := PyNone |}
              eq_refl) as [[_ H] _].
  apply H. repeat split.
  - exists []. split; [reflexivity|constructor].
  - exists 3. split; [reflexivity|lia].
  - intros d Hd. discriminate Hd.
Defined.

Ltac break_cases :=
  repeat match goal with
         | H : _ ∨ _ |- _ => destruct H
         | H : _ ∧ _ |- _ => destruct H
         | H : ∃ _, _ |- _ => destruct H
         end;
  try discriminate.

(** The timeout.  [Exception('IncorrectTimeoutError')] is raised exactly
    when the seed, count, headers and encoding rules hold and the timeout
    is a number below 1 or above 60, integer or not. *)
Theorem timeout_error (fs : filesystem) (path : string) (dto : ConfigDTO)
  (Hfile : file_dto fs path = Ok dto) :
  Config_new fs path = Raise (PyException "IncorrectTimeoutError") ↔
  seed_rule dto ∧ count_rule dto ∧ headers_rule dto ∧ encoding_rule dto ∧
  outside 1 60 (timeout dto).
Proof.
  rewrite (Config_new_validate _ _ _ _ Hfile), validate_dto_raise,
    checks_after_seeds_raise, checks_after_count_raise.
  split.
  - intros H. break_cases. done.
  - intros (Hs & Hc & Hh & He & Ht). right. right. right. split; [done|].
    right. right. right. split; [done|]. right. right. by left.
Qed.

Lemma timeout_error_witness :
  Config_new
    (Inputs.disk (Inputs.config_json Inputs.good_seeds
                    (PyInt 5) (PyFloat (FFin (1 # 2))) (PyBool true) (PyBool false)))
    "scrapper_config.json" = Raise (PyException "IncorrectTimeoutError").
Proof.
  apply (timeout_error
           (Inputs.disk (Inputs.config_json Inputs.good_seeds
                           (PyInt 5) (PyFloat (FFin (1 # 2))) (PyBool true) (PyBool false)))
           "scrapper_config.json"
           (Inputs.config_dto Inputs.good_seeds
              (PyInt 5) (PyFloat (FFin (1 # 2))) (PyBool true) (PyBool false))
           eq_refl).
  repeat split.
  - exists (PyStr <$> Inputs.good_seeds). split; [reflexivity|].
    apply all_startswith_true. reflexivity.
  - exists 5. split; [reflexivity|lia].
  - by eexists.
  - by eexists.
  - left. reflexivity.
Defined.

(** The article count.  With seed URLs that pass,
    [Exception('NumberOfArticlesOutOfRangeError')] is raised exactly for a
    number below 1 or above 150, whether an integer or not, and
    [Exception('IncorrectNumberOfArticlesError')] exactly for a number that
    is inside these bounds, or NaN, and is not an integer. *)
Theorem article_count_errors (fs : filesystem) (path : string) (dto : ConfigDTO)
  (Hfile : file_dto fs path = Ok dto) :
  (Config_new fs path = Raise (PyException "NumberOfArticlesOutOfRangeError") ↔
   seed_rule dto ∧ outside 1 150 (total_articles dto)) ∧
  (Config_new fs path = Raise (PyException "IncorrectNumberOfArticlesError") ↔
   seed_rule dto ∧ within 1 150 (total_articles dto) ∧
   int_value (total_articles dto) = None).
Proof.
  rewrite !(Config_new_validate _ _ _ _ Hfile), !validate_dto_raise,
    !checks_after_seeds_raise, !checks_after_count_raise.
  split; split.
  - intros H. break_cases. done.
  - intros [Hs Ho]. right. right. right. split; [done|]. by left.
  - intros H. break_cases. done.
  - intros (Hs & Hw & Hi). right. right. right. split; [done|].
    right. right. by left.
Qed.

Lemma article_count_errors_witness :
  Config_new
    (Inputs.disk (Inputs.config_json Inputs.good_seeds
                    (PyFloat (FFin (301 # 2))) (PyInt 10) (PyBool true) (PyBool false)))
    "scrapper_config.json" = Raise (PyException "NumberOfArticlesOutOfRangeError").
Proof.
  destruct (article_count_errors
              (Inputs.disk (Inputs.config_json Inputs.good_seeds
                              (PyFloat (FFin (301 # 2))) (PyInt 10) (PyBool true)
                              (PyBool false)))
              "scrapper_config.json"
              (Inputs.config_dto Inputs.good_seeds
                 (PyFloat (FFin (301 # 2))) (PyInt 10) (PyBool true) (PyBool false))
              eq_refl) as [[_ H] _].
  apply H. split.
  - exists (PyStr <$> Inputs.good_seeds). split; [reflexivity|].
    apply all_startswith_true. reflexivity.
  - right. reflexivity.
Defined.

(** [all] is false exactly when, reading the seeds in order, a string
    without the prefix comes before any value that is not a string. *)
Lemma all_startswith_false_iff (seeds : list pyval) :
  all_startswith seeds = Ok false ↔
  ∃ good bad rest, seeds = (PyStr <$> good) ++ PyStr bad :: rest ∧
                   Forall http_www_prefixed good ∧ ¬ http_www_prefixed bad.
Proof.
  induction seeds as [|v seeds IH]; cbn [all_startswith].
  - split; [done|]. intros (good & bad & rest & H & _).
    by destruct good.
  - destruct v as [| | | |s| |];
      try (split; [done|]; intros ([|g good] & bad & rest & [=] & _); fail).
    destruct (startswith s seed_prefixes) eqn:E.
    + rewrite IH. split.
      * intros (good & bad & rest & -> & Hgood & Hbad).
        exists (s :: good), bad, rest. split; [done|]. split; [|done].
        constructor; [by apply startswith_seed|done].
      * intros ([|g good] & bad & rest & Heq & Hgood & Hbad).
        -- injection Heq as <- _. by apply startswith_seed in E.
        -- injection Heq as <- ->. exists good, bad, rest.
           split; [done|]. split; [by inversion Hgood|done].
    + split; [|done]. intros _. exists [], s, seeds. split; [done|].
      split; [constructor|by apply not_prefixed].
Qed.

(** [all] raises exactly when a value that is not a string comes before any
    string without the prefix. *)
Lemma all_startswith_raise_iff (seeds : list pyval) :
  all_startswith seeds = Raise AttributeError ↔
  ∃ good v rest, seeds = (PyStr <$> good) ++ v :: rest ∧
                 Forall http_www_prefixed good ∧ ∀ s, v ≠ PyStr s.
Proof.
  induction seeds as [|v seeds IH]; cbn [all_startswith].
  - split; [done|]. intros (good & bad & rest & H & _).
    by destruct good.
  - destruct v as [| | | |s| |];
      try (split; [|done]; intros _;
           eexists [], _, seeds; split; [done|]; split; [constructor|done]).
    destruct (startswith s seed_prefixes) eqn:E.
    + rewrite IH. split.
      * intros (good & bad & rest & -> & Hgood & Hbad).
        exists (s :: good), bad, rest. split; [done|]. split; [|done].
        constructor; [by apply startswith_seed|done].
      * intros ([|g good] & bad & rest & Heq & Hgood & Hbad).
        -- injection Heq as <- _. by destruct (Hbad s).
        -- injection Heq as <- ->. exists good, bad, rest.
           split; [done|]. split; [by inversion Hgood|done].
    + split; [done|]. intros ([|g good] & bad & rest & Heq & Hgood & Hbad).
      * injection Heq as <- _. by destruct (Hbad s).
      * injection Heq as <- _. inversion Hgood as [|? ? Hg _].
        apply startswith_seed in Hg. congruence.
Qed.

(** The seed URLs, in full.  Iterating [seed_urls] in order,
    [Exception('IncorrectSeedURLError')] is raised exactly when a string
    without the prefix comes first, and [AttributeError] exactly when a
    value that is not a string comes first; the values after it are not
    looked at. *)
Theorem seed_errors (fs : filesystem) (path : string) (dto : ConfigDTO)
  (Hfile : file_dto fs path = Ok dto) :
  (Config_new fs path = Raise (PyException "IncorrectSeedURLError") ↔
   ∃ good bad rest,
     py_iter (seed_urls dto) = Ok ((PyStr <$> good) ++ PyStr bad :: rest) ∧
     Forall http_www_prefixed good ∧ ¬ http_www_prefixed bad) ∧
  (Config_new fs path = Raise AttributeError ↔
   ∃ good v rest,
     py_iter (seed_urls dto) = Ok ((PyStr <$> good) ++ v :: rest) ∧
     Forall http_www_prefixed good ∧ ∀ s, v ≠ PyStr s).
Proof.
  rewrite !(Config_new_validate _ _ _ _ Hfile), !validate_dto_raise,
    !checks_after_seeds_raise, !checks_after_count_raise.
  split; split.
  - intros H. break_cases.
    match goal with
    | H : all_startswith _ = Ok false |- _ =>
        apply all_startswith_false_iff in H as (good & bad & rest & -> & ? & ?)
    end.
    by exists good, bad, rest.
  - intros (good & bad & rest & Hiter & Hgood & Hbad). right. left.
    eexists. split; [done|]. split; [|done].
    apply all_startswith_false_iff. by exists good, bad, rest.
  - intros H. break_cases.
    match goal with
    | H : all_startswith _ = Raise AttributeError |- _ =>
        apply all_startswith_raise_iff in H as (good & bad & rest & -> & ? & ?)
    end.
    by exists good, bad, rest.
  - intros (good & bad & rest & Hiter & Hgood & Hbad). right. right. left.
    eexists. split; [done|]. split; [|done].
    apply all_startswith_raise_iff. by exists good, bad, rest.
Qed.

Lemma seed_errors_witness :
  Config_new
    (Inputs.disk (PyDict [("seed_urls"%string,
                           PyList [PyStr "https://www.site.com/news"; PyInt 7;
                                   PyStr "ftp://www.site.com"]);
                          ("total_articles_to_find_and_parse"%string, PyInt 3);
                          ("headers"%string, PyDict []);
                          ("encoding"%string, PyStr "utf-8");
                          ("timeout"%string, PyInt 5);
                          ("should_verify_certificate"%string, PyBool true);
                          ("headless_mode"%string, PyBool true)]))
    "scrapper_config.json" = Raise AttributeError.
Proof.
  destruct (seed_errors
              (Inputs.disk (PyDict [("seed_urls"%string,
                                     PyList [PyStr "https://www.site.com/news"; PyInt 7;
                                             PyStr "ftp://www.site.com"]);
                                    ("total_articles_to_find_and_parse"%string, PyInt 3);
                                    ("headers"%string, PyDict []);
                                    ("encoding"%string, PyStr "utf-8");
                                    ("timeout"%string, PyInt 5);
                                    ("should_verify_certificate"%string, PyBool true);
                                    ("headless_mode"%string, PyBool true)]))
              "scrapper_config.json"
              {| seed_urls := PyList [PyStr "https://www.site.com/news"; PyInt 7;
                                      PyStr "ftp://www.site.com"];
                 total_articles := PyInt 3; headers := PyDict [];
                 encoding := PyStr "utf-8"; timeout := PyInt 5;
                 should_verify_certificate := PyBool true;
                 headless_mode := PyBool true |}
              eq_refl) as [_ [_ H]].
  apply H.
  exists ["https://www.site.com/news"%string], (PyInt 7), [PyStr "ftp://www.site.com"].
  split; [reflexivity|]. split.
  - constructor; [|constructor]. apply startswith_seed. reflexivity.
  - intros s Hs. discriminate Hs.
Defined.



(** Every way the validation can fail.  For a file that has been read and
    holds the seven keys, construction raises nothing but a [TypeError] or
    an [AttributeError] from a value of the wrong type, and [Exception] with
    one of the seven messages of the checks. *)
Theorem validation_errors (fs : filesystem) (path : string) (dto : ConfigDTO)
    (e : exn)
  (Hfile : file_dto fs path = Ok dto)
  (Hraise : Config_new fs path = Raise e) :
  e ∈ [TypeError; AttributeError] ∨
  ∃ msg, e = PyException msg ∧
         msg ∈ ["IncorrectSeedURLError"; "NumberOfArticlesOutOfRangeError";
                "IncorrectNumberOfArticlesError"; "IncorrectHeadersError";
                "IncorrectEncodingError"; "IncorrectTimeoutError";
                "IncorrectVerifyError"]%string.
Proof.
  apply (Config_new_validate _ _ _ _ Hfile) in Hraise.
  apply validate_dto_raise in Hraise.
  rewrite checks_after_seeds_raise, checks_after_count_raise in Hraise.
  break_cases; subst;
    first [ left; set_unfold; tauto
          | right; eexists; split; [reflexivity|set_unfold; tauto] ].
Qed.

Lemma validation_errors_witness :
  PyException "IncorrectVerifyError" ∈ [TypeError; AttributeError] ∨
  ∃ msg, PyException "IncorrectVerifyError" = PyException msg ∧
         msg ∈ ["IncorrectSeedURLError"; "NumberOfArticlesOutOfRangeError";
                "IncorrectNumberOfArticlesError"; "IncorrectHeadersError";
                "IncorrectEncodingError"; "IncorrectTimeoutError";
                "IncorrectVerifyError"]%string.
Proof.
  apply (validation_errors
           (Inputs.disk (Inputs.config_json Inputs.good_seeds
                           (PyInt 5) (PyInt 10) (PyBool true) (PyInt 1)))
           "scrapper_config.json"
           (Inputs.config_dto Inputs.good_seeds
              (PyInt 5) (PyInt 10) (PyBool true) (PyInt 1))
           (PyException "IncorrectVerifyError") eq_refl).
  reflexivity.
Defined.

(** The timeout NaN, which [json.load] reads from the literal [NaN], is
    below nothing and above nothing: it passes the timeout check and the
    [Config] is constructed with it. *)
Example nan_timeout_accepted :
  Config_new
    (Inputs.disk (Inputs.config_json Inputs.good_seeds
                    (PyInt 5) (PyFloat FNaN) (PyBool true) (PyBool false)))
    "scrapper_config.json" =
  Ok (constructed "scrapper_config.json"
        (Inputs.config_dto Inputs.good_seeds
           (PyInt 5) (PyFloat FNaN) (PyBool true) (PyBool false))).
Proof. reflexivity. Qed.

(** ** Edge cases of the seed URLs *)

Lemma single_char_not_prefixed (c : Ascii.ascii) :
  startswith (String c EmptyString) seed_prefixes = false.
Proof.
  destruct c as [[] [] [] [] [] [] [] []]; reflexivity.
Qed.

(** [seed_urls] given as one string instead of a list of strings: the
    check iterates its characters, so every non-empty string, a well-formed
    URL included, is refused with [Exception('IncorrectSeedURLError')]. *)
Theorem seed_urls_as_string (fs : filesystem) (path : string) (dto : ConfigDTO)
    (c : Ascii.ascii) (s : string)
  (Hfile : file_dto fs path = Ok dto)
  (Hseed : seed_urls dto = PyStr (String c s)) :
  Config_new fs path = Raise (PyException "IncorrectSeedURLError").
Proof.
  apply (Config_new_validate _ _ _ _ Hfile). unfold validate_dto.
  rewrite Hseed. cbn [py_iter chars mbind result_bind all_startswith].
  by rewrite single_char_not_prefixed.
Qed.

Lemma seed_urls_as_string_witness :
  Config_new
    (Inputs.disk (PyDict [("seed_urls"%string, PyStr "https://www.site.com/news");
                          ("total_articles_to_find_and_parse"%string, PyInt 3);
                          ("headers"%string, PyDict []);
                          ("encoding"%string, PyStr "utf-8");
                          ("timeout"%string, PyInt 5);
                          ("should_verify_certificate"%string, PyBool true);
                          ("headless_mode"%string, PyBool true)]))
    "scrapper_config.json" = Raise (PyException "IncorrectSeedURLError").
Proof.
  apply (seed_urls_as_string
           (Inputs.disk (PyDict [("seed_urls"%string, PyStr "https://www.site.com/news");
                                 ("total_articles_to_find_and_parse"%string, PyInt 3);
                                 ("headers"%string, PyDict []);
                                 ("encoding"%string, PyStr "utf-8");
                                 ("timeout"%string, PyInt 5);
                                 ("should_verify_certificate"%string, PyBool true);
                                 ("headless_mode"%string, PyBool true)]))
           "scrapper_config.json"
           {| seed_urls := PyStr "https://www.site.com/news";
              total_articles := PyInt 3; headers := PyDict [];
              encoding := PyStr "utf-8"; timeout := PyInt 5;
              should_verify_certificate := PyBool true;
              headless_mode := PyBool true |}
           _ _ eq_refl eq_refl).
Defined.

(** No seed URL at all: an empty list passes the seed check, and the
    [Config] is constructed when the other rules hold. *)
Theorem empty_seed_list_accepted (fs : filesystem) (path : string) (dto : ConfigDTO)
  (Hfile : file_dto fs path = Ok dto)
  (Hseed : seed_urls dto = PyList [])
  (Hcount : count_rule dto) (Hheaders : headers_rule dto)
  (Hencoding : encoding_rule dto) (Htimeout : timeout_rule dto)
  (Hheadless : headless_rule dto) :
  Config_new fs path = Ok (constructed path dto) ∧
  get_seed_urls (constructed path dto) = Ok (PyList []).
Proof.
  split.
  - apply Config_new_Ok; [done|]. repeat split; try done.
    exists []. rewrite Hseed. split; [done|constructor].
  - unfold get_seed_urls. simpl. by rewrite Hseed.
Qed.

Lemma empty_seed_list_accepted_witness :
  Config_new
    (Inputs.disk (Inputs.config_json [] (PyInt 5) (PyInt 10) (PyBool true) (PyBool false)))
    "scrapper_config.json" =
  Ok (constructed "scrapper_config.json"
        (Inputs.config_dto [] (PyInt 5) (PyInt 10) (PyBool true) (PyBool false))).
Proof.
  apply (empty_seed_list_accepted
           (Inputs.disk (Inputs.config_json [] (PyInt 5) (PyInt 10) (PyBool true)
                           (PyBool false)))
           "scrapper_config.json"
           (Inputs.config_dto [] (PyInt 5) (PyInt 10) (PyBool true) (PyBool false))
           eq_refl eq_refl).
  - exists 5. split; [reflexivity|lia].
  - by eexists.
  - by eexists.
  - unfold timeout_rule. simpl. lia.
  - by eexists.
Defined.

(** ** What the headers and the encoding may hold *)

(** Only the types of the headers and of the encoding are checked.  With
    any [dict] as headers, whatever its keys map to, and any [str] as
    encoding, a configuration that was accepted is accepted again. *)
Theorem headers_encoding_contents_unchecked (fs fs' : filesystem) (path : string)
    (dto : ConfigDTO) (d : list (string * pyval)) (s : string)
  (Hfile : file_dto fs path = Ok dto)
  (Hfile' : file_dto fs' path =
            Ok (with_headers_encoding (PyDict d) (PyStr s) dto))
  (Hnew : Config_new fs path = Ok (constructed path dto)) :
  Config_new fs' path =
  Ok (constructed path (with_headers_encoding (PyDict d) (PyStr s) dto)).
Proof.
  apply Config_new_Ok_inv in Hnew as (dto' & Hfile'' & Heq & Hrules).
  injection Heq as <-.
  apply Config_new_Ok; [done|].
  destruct Hrules as (Hs & Hc & _ & _ & Ht & Hl).
  repeat split; try done; by eexists.
Qed.

Lemma headers_encoding_contents_unchecked_witness :
  Config_new
    (Inputs.disk (PyDict [("seed_urls"%string, PyList (PyStr <$> Inputs.good_seeds));
                          ("total_articles_to_find_and_parse"%string, PyInt 5);
                          ("headers"%string, PyDict [("Accept"%string, PyInt 1)]);
                          ("encoding"%string, PyStr "no such encoding");
                          ("timeout"%string, PyInt 10);
                          ("should_verify_certificate"%string, PyBool true);
                          ("headless_mode"%string, PyBool false)]))
    "scrapper_config.json" =
  Ok (constructed "scrapper_config.json"
        (with_headers_encoding (PyDict [("Accept"%string, PyInt 1)])
           (PyStr "no such encoding") Inputs.good_dto)).
Proof.
  apply (headers_encoding_contents_unchecked Inputs.good_disk
           (Inputs.disk (PyDict [("seed_urls"%string, PyList (PyStr <$> Inputs.good_seeds));
                                 ("total_articles_to_find_and_parse"%string, PyInt 5);
                                 ("headers"%string, PyDict [("Accept"%string, PyInt 1)]);
                                 ("encoding"%string, PyStr "no such encoding");
                                 ("timeout"%string, PyInt 10);
                                 ("should_verify_certificate"%string, PyBool true);
                                 ("headless_mode"%string, PyBool false)]))
           "scrapper_config.json" Inputs.good_dto
           [("Accept"%string, PyInt 1)] "no such encoding"
           eq_refl eq_refl eq_refl).
Defined.

(** ** Requests with a constructed configuration *)



(** The configuration reaches the request through its headers and its
    timeout only: two configurations that agree on these two get the same
    outcome for every URL, whatever the network does. *)
Theorem make_request_reads_headers_timeout
    (requests_get : get_kwargs → result Response) (url : string)
    (cfg1 cfg2 : Config) (dto1 dto2 : ConfigDTO)
  (Hcfg1 : config cfg1 = Some dto1) (Hcfg2 : config cfg2 = Some dto2)
  (Hheaders : headers dto1 = headers dto2)
  (Htimeout : timeout dto1 = timeout dto2) :
  make_request requests_get url cfg1 = make_request requests_get url cfg2.
Proof.
  unfold make_request, get_headers, get_timeout.
  rewrite Hcfg1, Hcfg2. simpl. by rewrite Hheaders, Htimeout.
Qed.

Lemma make_request_reads_headers_timeout_witness :
  make_request Inputs.self_signed_host "https://www.site.com/news"
    (constructed "a.json"
       (Inputs.config_dto Inputs.good_seeds (PyInt 5) (PyInt 10) (PyBool false)
          (PyBool false))) =
  make_request Inputs.self_signed_host "https://www.site.com/news"
    (constructed "b.json"
       (Inputs.config_dto [] (PyInt 150) (PyInt 10) (PyBool true) (PyBool true))).
Proof.
  apply (make_request_reads_headers_timeout Inputs.self_signed_host
           "https://www.site.com/news"
           (constructed "a.json"
              (Inputs.config_dto Inputs.good_seeds (PyInt 5) (PyInt 10) (PyBool false)
                 (PyBool false)))
           (constructed "b.json"
              (Inputs.config_dto [] (PyInt 150) (PyInt 10) (PyBool true) (PyBool true)))
           (Inputs.config_dto Inputs.good_seeds (PyInt 5) (PyInt 10) (PyBool false)
              (PyBool false))
           (Inputs.config_dto [] (PyInt 150) (PyInt 10) (PyBool true) (PyBool true))
           eq_refl eq_refl eq_refl eq_refl).
Defined.

(** ** The environment *)

(** What [prepare_environment] does, for every state of [ASSETS_PATH] and
    every [base_path]: it returns when there is an empty directory and
    raises otherwise, [FileNotFoundError] for no directory,
    [NotADirectoryError] for a regular file, [FileExistsError] for a
    directory with entries; in every case the file system is afterwards as
    it was before. *)
Theorem prepare_environment_outcome (ASSETS_PATH : string) (fs : filesystem)
    (base_path : string) :
  prepare_environment ASSETS_PATH fs base_path =
  (fs, match fs !! ASSETS_PATH with
       | Some (Dir []) => Ok ()
       | Some (Dir (_ :: _)) => Raise FileExistsError
       | Some (File _) => Raise NotADirectoryError
       | None => Raise FileNotFoundError
       end).
Proof.
  destruct (fs !! ASSETS_PATH) as [[parsed|[|entry entries]]|] eqn:H.
  - by eapply prepare_environment_file.
  - by apply prepare_environment_empty.
  - by eapply prepare_environment_nonempty.
  - by apply prepare_environment_absent.
Qed.

Lemma prepare_environment_twice_witness :
  Inputs.disk_with_empty_assets !! Inputs.assets = Some (Dir []) ∧
  prepare_environment Inputs.assets Inputs.disk_with_empty_assets "anywhere" =
  (Inputs.disk_with_empty_assets, Ok ()).
Proof.
  apply (prepare_environment_twice Inputs.assets Inputs.disk_with_empty_assets
           Inputs.disk_with_empty_assets "anywhere").
  apply prepare_environment_empty. reflexivity.
Defined.

(** ** main *)

(** [main] never runs to its end and never touches the file system: when
    the configuration cannot be constructed it raises the error of the
    construction, and when it can, the call [prepare_environment()] lacks
    its argument and raises [TypeError] before the body runs. *)
Theorem main_always_raises (ASSETS_PATH CRAWLER_CONFIG_PATH : string)
    (fs : filesystem) :
  ∃ e, main ASSETS_PATH CRAWLER_CONFIG_PATH fs = (fs, Raise e) ∧
       (∀ configuration, Config_new fs CRAWLER_CONFIG_PATH = Ok configuration →
                         e = TypeError) ∧
       (∀ e', Config_new fs CRAWLER_CONFIG_PATH = Raise e' → e = e').
Proof.
  unfold main. destruct (Config_new fs CRAWLER_CONFIG_PATH) as [cfg|e1].
  - exists TypeError. split; [done|]. split; [done|]. intros e' H. discriminate H.
  - exists e1. split; [done|]. split; [intros cfg H; discriminate H|].
    by intros e' [= <-].
Qed.

Lemma main_always_raises_witness :
  main Inputs.assets "scrapper_config.json"
    (Inputs.good_disk ∪ Inputs.disk_with_articles) =
  (Inputs.good_disk ∪ Inputs.disk_with_articles, Raise TypeError).
Proof.
  destruct (main_always_raises Inputs.assets "scrapper_config.json"
              (Inputs.good_disk ∪ Inputs.disk_with_articles))
    as (e & Hmain & Hok & _).
  rewrite Hmain.
  by rewrite (Hok (constructed "scrapper_config.json" Inputs.good_dto) eq_refl).
Defined.
